(** * Falcon-X flight simulator: a Rocq model of [src/rocketSimulator.js]

    The development embeds the [RocketSimulator] class shallowly.  Every
    method of the class becomes a function on the simulator object [Sim],
    written with explicit state passing in the order of the source
    statements.

    Modelling conventions.
    - A JavaScript number is a real number ([R]); [Math.exp], [Math.sin],
      [Math.cos], [Math.sqrt], [Math.abs], [Math.max], [Math.min] and
      [Math.PI] are the functions of the standard library of reals.
      Rounding, infinities and not-a-number values of the numeric fields
      declared by the constructor are outside the model; where the source
      divides, the model divides in [R].
    - The telemetry properties that the constructor does not declare and
      that the abort and landing sequencers create on first write
      (chamberTemperature, the flow rates, the turbopump speeds, ...) may
      be [undefined]; they are of type [jsnum], whose arithmetic propagates
      not-a-number the way the source's does.
    - [state.landingLegsDeployed] is not declared by the constructor
      either; the source only reads it under [!], so [undefined] is [false].
    - [console.log] output is not part of the modelled state.
    - [setTimeout] in [separateStage] is a counter of pending callbacks in
      [Sim]; the callback is the function [secondStageIgnition], run by the
      environment between two method calls. *)

From Stdlib Require Import Reals Lra Lia ZArith String List Bool.
Import ListNotations.
Open Scope R_scope.

(** ** JavaScript comparisons on numbers, as booleans *)

Definition Rgtb (a b : R) : bool := if Rgt_dec a b then true else false.
Definition Rltb (a b : R) : bool := if Rlt_dec a b then true else false.
Definition Rgeb (a b : R) : bool := if Rge_dec a b then true else false.
Definition Rleb (a b : R) : bool := if Rle_dec a b then true else false.

Infix ">?" := Rgtb (at level 70, no associativity) : R_scope.
Infix "<?" := Rltb (at level 70, no associativity) : R_scope.
Infix ">=?" := Rgeb (at level 70, no associativity) : R_scope.
Infix "<=?" := Rleb (at level 70, no associativity) : R_scope.

(** ** Numbers that may be [undefined] *)

Inductive jsnum : Type :=
| JUndefined
| JNaN
| JNum (r : R).

(** [x * c] for a numeric literal [c]. *)
Definition jmul (x : jsnum) (c : R) : jsnum :=
  match x with
  | JNum r => JNum (r * c)
  | _ => JNaN
  end.

(** [Math.max(c, x)] for a numeric literal [c]. *)
Definition jmax (c : R) (x : jsnum) : jsnum :=
  match x with
  | JNum r => JNum (Rmax c r)
  | _ => JNaN
  end.

(** [x + y]. *)
Definition jadd (x y : jsnum) : jsnum :=
  match x, y with
  | JNum a, JNum b => JNum (a + b)
  | _, _ => JNaN
  end.

(** ** Vehicle specification, constants, mission and limits *)

Module Stage.
Record t : Type := mk {
  dryMass : R;
  propellantMass : R;
  thrust : R;
  thrustVac : R;
  burnTime : R;
  engines : Z;
  specificImpulse : R
}.
End Stage.

Module Specs.
Record t : Type := mk {
  name : string;
  stages : Z;
  totalMass : R;
  hasLandingCapability : bool;
  landingBurnAltitude : R;
  firstStage : Stage.t;
  secondStage : Stage.t;
  payload : R;
  dragCoefficient : R;
  crossSection : R
}.
End Specs.

Module Constants.
Record t : Type := mk {
  g0 : R;
  Re : R;
  atmosphereHeight : R;
  speedOfSound : R;
  airDensitySeaLevel : R
}.
End Constants.

Module Mission.
Record t : Type := mk {
  targetAltitude : R;
  targetVelocity : R;
  maxQAltitude : R;
  stageSepAltitude : R;
  gravityTurnStart : R;
  targetInclination : R
}.
End Mission.

Module Limits.
Record t : Type := mk {
  maxQ : R;
  maxG : R;
  maxThrust : R;
  maxAltitude : R;
  maxVelocity : R;
  minChamberPressure : R
}.
End Limits.

(** The second stage has no [thrustVac] property: [stage.thrustVac] would be
    [undefined] there, and the source reads it for the first stage only.
    The model stores the stage's vacuum-rated [thrust]. *)
Definition specs : Specs.t :=
  {| Specs.name := "Falcon-X";
     Specs.stages := 2;
     Specs.totalMass := 549054;
     Specs.hasLandingCapability := true;
     Specs.landingBurnAltitude := 5000;
     Specs.firstStage :=
       {| Stage.dryMass := 22200;
          Stage.propellantMass := 411000;
          Stage.thrust := 7607000;
          Stage.thrustVac := 8227000;
          Stage.burnTime := 162;
          Stage.engines := 9;
          Stage.specificImpulse := 282 |};
     Specs.secondStage :=
       {| Stage.dryMass := 4000;
          Stage.propellantMass := 111500;
          Stage.thrust := 934000;
          Stage.thrustVac := 934000;
          Stage.burnTime := 397;
          Stage.engines := 1;
          Stage.specificImpulse := 348 |};
     Specs.payload := 22800;
     Specs.dragCoefficient := 0.3;
     Specs.crossSection := 10.52 |}.

Definition constants : Constants.t :=
  {| Constants.g0 := 9.81;
     Constants.Re := 6371000;
     Constants.atmosphereHeight := 100000;
     Constants.speedOfSound := 343;
     Constants.airDensitySeaLevel := 1.225 |}.

Definition mission : Mission.t :=
  {| Mission.targetAltitude := 400000;
     Mission.targetVelocity := 7660;
     Mission.maxQAltitude := 13000;
     Mission.stageSepAltitude := 65000;
     Mission.gravityTurnStart := 150;
     Mission.targetInclination := 51.6 |}.

Definition defaultLimits : Limits.t :=
  {| Limits.maxQ := 45000;
     Limits.maxG := 5;
     Limits.maxThrust := 8500000;
     Limits.maxAltitude := 500000;
     Limits.maxVelocity := 8000;
     Limits.minChamberPressure := 50 |}.

(** ** Flight state *)

Inductive Phase : Type :=
| PAD | IGNITION | LAUNCH | ASCENT | MECO | STAGE_SEP | SECOND_STAGE | ORBIT
| ABORT | LANDING | LANDED | ABORTED_STOPPED.

Definition Phase_eqb (p q : Phase) : bool :=
  match p, q with
  | PAD, PAD | IGNITION, IGNITION | LAUNCH, LAUNCH | ASCENT, ASCENT
  | MECO, MECO | STAGE_SEP, STAGE_SEP | SECOND_STAGE, SECOND_STAGE
  | ORBIT, ORBIT | ABORT, ABORT | LANDING, LANDING | LANDED, LANDED
  | ABORTED_STOPPED, ABORTED_STOPPED => true
  | _, _ => false
  end.

(** [state.abort] of the source is the field [abortFlag] here: [abort] is
    the name of the method. *)
Record FlightState : Type := mkFlightState {
  phase : Phase;
  stageNumber : Z;
  ignitionSequence : bool;
  engineStatus : string;
  guidanceMode : string;
  throttleLevel : R;
  missionTime : R;
  abortFlag : bool;
  landingBurnStarted : bool;
  landingLegsDeployed : bool
}.

Definition set_phase (v : Phase) (st : FlightState) : FlightState :=
  {| phase := v; stageNumber := stageNumber st; ignitionSequence := ignitionSequence st;
     engineStatus := engineStatus st; guidanceMode := guidanceMode st;
     throttleLevel := throttleLevel st; missionTime := missionTime st;
     abortFlag := abortFlag st; landingBurnStarted := landingBurnStarted st;
     landingLegsDeployed := landingLegsDeployed st |}.

Definition set_stageNumber (v : Z) (st : FlightState) : FlightState :=
  {| phase := phase st; stageNumber := v; ignitionSequence := ignitionSequence st;
     engineStatus := engineStatus st; guidanceMode := guidanceMode st;
     throttleLevel := throttleLevel st; missionTime := missionTime st;
     abortFlag := abortFlag st; landingBurnStarted := landingBurnStarted st;
     landingLegsDeployed := landingLegsDeployed st |}.

Definition set_ignitionSequence (v : bool) (st : FlightState) : FlightState :=
  {| phase := phase st; stageNumber := stageNumber st; ignitionSequence := v;
     engineStatus := engineStatus st; guidanceMode := guidanceMode st;
     throttleLevel := throttleLevel st; missionTime := missionTime st;
     abortFlag := abortFlag st; landingBurnStarted := landingBurnStarted st;
     landingLegsDeployed := landingLegsDeployed st |}.

Definition set_engineStatus (v : string) (st : FlightState) : FlightState :=
  {| phase := phase st; stageNumber := stageNumber st; ignitionSequence := ignitionSequence st;
     engineStatus := v; guidanceMode := guidanceMode st; throttleLevel := throttleLevel st;
     missionTime := missionTime st; abortFlag := abortFlag st;
     landingBurnStarted := landingBurnStarted st;
     landingLegsDeployed := landingLegsDeployed st |}.

Definition set_guidanceMode (v : string) (st : FlightState) : FlightState :=
  {| phase := phase st; stageNumber := stageNumber st; ignitionSequence := ignitionSequence st;
     engineStatus := engineStatus st; guidanceMode := v; throttleLevel := throttleLevel st;
     missionTime := missionTime st; abortFlag := abortFlag st;
     landingBurnStarted := landingBurnStarted st;
     landingLegsDeployed := landingLegsDeployed st |}.

Definition set_throttleLevel (v : R) (st : FlightState) : FlightState :=
  {| phase := phase st; stageNumber := stageNumber st; ignitionSequence := ignitionSequence st;
     engineStatus := engineStatus st; guidanceMode := guidanceMode st; throttleLevel := v;
     missionTime := missionTime st; abortFlag := abortFlag st;
     landingBurnStarted := landingBurnStarted st;
     landingLegsDeployed := landingLegsDeployed st |}.

Definition set_missionTime (v : R) (st : FlightState) : FlightState :=
  {| phase := phase st; stageNumber := stageNumber st; ignitionSequence := ignitionSequence st;
     engineStatus := engineStatus st; guidanceMode := guidanceMode st;
     throttleLevel := throttleLevel st; missionTime := v; abortFlag := abortFlag st;
     landingBurnStarted := landingBurnStarted st;
     landingLegsDeployed := landingLegsDeployed st |}.

Definition set_abortFlag (v : bool) (st : FlightState) : FlightState :=
  {| phase := phase st; stageNumber := stageNumber st; ignitionSequence := ignitionSequence st;
     engineStatus := engineStatus st; guidanceMode := guidanceMode st;
     throttleLevel := throttleLevel st; missionTime := missionTime st; abortFlag := v;
     landingBurnStarted := landingBurnStarted st;
     landingLegsDeployed := landingLegsDeployed st |}.

Definition set_landingBurnStarted (v : bool) (st : FlightState) : FlightState :=
  {| phase := phase st; stageNumber := stageNumber st; ignitionSequence := ignitionSequence st;
     engineStatus := engineStatus st; guidanceMode := guidanceMode st;
     throttleLevel := throttleLevel st; missionTime := missionTime st;
     abortFlag := abortFlag st; landingBurnStarted := v;
     landingLegsDeployed := landingLegsDeployed st |}.

Definition set_landingLegsDeployed (v : bool) (st : FlightState) : FlightState :=
  {| phase := phase st; stageNumber := stageNumber st; ignitionSequence := ignitionSequence st;
     engineStatus := engineStatus st; guidanceMode := guidanceMode st;
     throttleLevel := throttleLevel st; missionTime := missionTime st;
     abortFlag := abortFlag st; landingBurnStarted := landingBurnStarted st;
     landingLegsDeployed := v |}.

(** ** Telemetry

    The first twenty-nine fields are the ones the constructor declares, in
    its order; the [jsnum] fields are created by [simulateAbort] and
    [simulateLanding]. *)
Record Telemetry : Type := mkTelemetry {
  altitude : R;
  velocity : R;
  acceleration : R;
  downrange : R;
  apogee : R;
  perigee : R;
  inclination : R;
  orbitalVelocity : R;
  mass : R;
  thrust : R;
  twr : R;
  maxQ : R;
  gForce : R;
  propellantRemaining : R;
  engineThrottle : R;
  chamberPressure : R;
  exhaustVelocity : R;
  pitch : R;
  yaw : R;
  roll : R;
  flightPathAngle : R;
  dynamicPressure : R;
  machNumber : R;
  atmosphericDensity : R;
  temperature : R;
  stage1FuelRemaining : R;
  stage2FuelRemaining : R;
  stage1BurnTime : R;
  stage2BurnTime : R;
  chamberTemperature : jsnum;
  fuelFlowRate : jsnum;
  oxidizerFlowRate : jsnum;
  totalFlowRate : jsnum;
  fuelTurbopumpRPM : jsnum;
  oxidizerTurbopumpRPM : jsnum;
  turbopumpInletPressure : jsnum;
  nozzleThroatTemp : jsnum;
  turbineInletTemp : jsnum;
  vibrationLevel : jsnum;
  gimbalAngleX : jsnum;
  gimbalAngleY : jsnum
}.

Definition set_altitude (v : R) (t : Telemetry) : Telemetry :=
  {| altitude := v; velocity := velocity t; acceleration := acceleration t;
     downrange := downrange t; apogee := apogee t; perigee := perigee t;
     inclination := inclination t; orbitalVelocity := orbitalVelocity t; mass := mass t;
     thrust := thrust t; twr := twr t; maxQ := maxQ t; gForce := gForce t;
     propellantRemaining := propellantRemaining t; engineThrottle := engineThrottle t;
     chamberPressure := chamberPressure t; exhaustVelocity := exhaustVelocity t;
     pitch := pitch t; yaw := yaw t; roll := roll t; flightPathAngle := flightPathAngle t;
     dynamicPressure := dynamicPressure t; machNumber := machNumber t;
     atmosphericDensity := atmosphericDensity t; temperature := temperature t;
     stage1FuelRemaining := stage1FuelRemaining t;
     stage2FuelRemaining := stage2FuelRemaining t; stage1BurnTime := stage1BurnTime t;
     stage2BurnTime := stage2BurnTime t; chamberTemperature := chamberTemperature t;
     fuelFlowRate := fuelFlowRate t; oxidizerFlowRate := oxidizerFlowRate t;
     totalFlowRate := totalFlowRate t; fuelTurbopumpRPM := fuelTurbopumpRPM t;
     oxidizerTurbopumpRPM := oxidizerTurbopumpRPM t;
     turbopumpInletPressure := turbopumpInletPressure t;
     nozzleThroatTemp := nozzleThroatTemp t; turbineInletTemp := turbineInletTemp t;
     vibrationLevel := vibrationLevel t; gimbalAngleX := gimbalAngleX t;
     gimbalAngleY := gimbalAngleY t |}.

Definition set_velocity (v : R) (t : Telemetry) : Telemetry :=
  {| altitude := altitude t; velocity := v; acceleration := acceleration t;
     downrange := downrange t; apogee := apogee t; perigee := perigee t;
     inclination := inclination t; orbitalVelocity := orbitalVelocity t; mass := mass t;
     thrust := thrust t; twr := twr t; maxQ := maxQ t; gForce := gForce t;
     propellantRemaining := propellantRemaining t; engineThrottle := engineThrottle t;
     chamberPressure := chamberPressure t; exhaustVelocity := exhaustVelocity t;
     pitch := pitch t; yaw := yaw t; roll := roll t; flightPathAngle := flightPathAngle t;
     dynamicPressure := dynamicPressure t; machNumber := machNumber t;
     atmosphericDensity := atmosphericDensity t; temperature := temperature t;
     stage1FuelRemaining := stage1FuelRemaining t;
     stage2FuelRemaining := stage2FuelRemaining t; stage1BurnTime := stage1BurnTime t;
     stage2BurnTime := stage2BurnTime t; chamberTemperature := chamberTemperature t;
     fuelFlowRate := fuelFlowRate t; oxidizerFlowRate := oxidizerFlowRate t;
     totalFlowRate := totalFlowRate t; fuelTurbopumpRPM := fuelTurbopumpRPM t;
     oxidizerTurbopumpRPM := oxidizerTurbopumpRPM t;
     turbopumpInletPressure := turbopumpInletPressure t;
     nozzleThroatTemp := nozzleThroatTemp t; turbineInletTemp := turbineInletTemp t;
     vibrationLevel := vibrationLevel t; gimbalAngleX := gimbalAngleX t;
     gimbalAngleY := gimbalAngleY t |}.

Definition set_acceleration (v : R) (t : Telemetry) : Telemetry :=
  {| altitude := altitude t; velocity := velocity t; acceleration := v;
     downrange := downrange t; apogee := apogee t; perigee := perigee t;
     inclination := inclination t; orbitalVelocity := orbitalVelocity t; mass := mass t;
     thrust := thrust t; twr := twr t; maxQ := maxQ t; gForce := gForce t;
     propellantRemaining := propellantRemaining t; engineThrottle := engineThrottle t;
     chamberPressure := chamberPressure t; exhaustVelocity := exhaustVelocity t;
     pitch := pitch t; yaw := yaw t; roll := roll t; flightPathAngle := flightPathAngle t;
     dynamicPressure := dynamicPressure t; machNumber := machNumber t;
     atmosphericDensity := atmosphericDensity t; temperature := temperature t;
     stage1FuelRemaining := stage1FuelRemaining t;
     stage2FuelRemaining := stage2FuelRemaining t; stage1BurnTime := stage1BurnTime t;
     stage2BurnTime := stage2BurnTime t; chamberTemperature := chamberTemperature t;
     fuelFlowRate := fuelFlowRate t; oxidizerFlowRate := oxidizerFlowRate t;
     totalFlowRate := totalFlowRate t; fuelTurbopumpRPM := fuelTurbopumpRPM t;
     oxidizerTurbopumpRPM := oxidizerTurbopumpRPM t;
     turbopumpInletPressure := turbopumpInletPressure t;
     nozzleThroatTemp := nozzleThroatTemp t; turbineInletTemp := turbineInletTemp t;
     vibrationLevel := vibrationLevel t; gimbalAngleX := gimbalAngleX t;
     gimbalAngleY := gimbalAngleY t |}.

Definition set_downrange (v : R) (t : Telemetry) : Telemetry :=
  {| altitude := altitude t; velocity := velocity t; acceleration := acceleration t;
     downrange := v; apogee := apogee t; perigee := perigee t; inclination := inclination t;
     orbitalVelocity := orbitalVelocity t; mass := mass t; thrust := thrust t; twr := twr t;
     maxQ := maxQ t; gForce := gForce t; propellantRemaining := propellantRemaining t;
     engineThrottle := engineThrottle t; chamberPressure := chamberPressure t;
     exhaustVelocity := exhaustVelocity t; pitch := pitch t; yaw := yaw t; roll := roll t;
     flightPathAngle := flightPathAngle t; dynamicPressure := dynamicPressure t;
     machNumber := machNumber t; atmosphericDensity := atmosphericDensity t;
     temperature := temperature t; stage1FuelRemaining := stage1FuelRemaining t;
     stage2FuelRemaining := stage2FuelRemaining t; stage1BurnTime := stage1BurnTime t;
     stage2BurnTime := stage2BurnTime t; chamberTemperature := chamberTemperature t;
     fuelFlowRate := fuelFlowRate t; oxidizerFlowRate := oxidizerFlowRate t;
     totalFlowRate := totalFlowRate t; fuelTurbopumpRPM := fuelTurbopumpRPM t;
     oxidizerTurbopumpRPM := oxidizerTurbopumpRPM t;
     turbopumpInletPressure := turbopumpInletPressure t;
     nozzleThroatTemp := nozzleThroatTemp t; turbineInletTemp := turbineInletTemp t;
     vibrationLevel := vibrationLevel t; gimbalAngleX := gimbalAngleX t;
     gimbalAngleY := gimbalAngleY t |}.

Definition set_apogee (v : R) (t : Telemetry) : Telemetry :=
  {| altitude := altitude t; velocity := velocity t; acceleration := acceleration t;
     downrange := downrange t; apogee := v; perigee := perigee t; inclination := inclination t;
     orbitalVelocity := orbitalVelocity t; mass := mass t; thrust := thrust t; twr := twr t;
     maxQ := maxQ t; gForce := gForce t; propellantRemaining := propellantRemaining t;
     engineThrottle := engineThrottle t; chamberPressure := chamberPressure t;
     exhaustVelocity := exhaustVelocity t; pitch := pitch t; yaw := yaw t; roll := roll t;
     flightPathAngle := flightPathAngle t; dynamicPressure := dynamicPressure t;
     machNumber := machNumber t; atmosphericDensity := atmosphericDensity t;
     temperature := temperature t; stage1FuelRemaining := stage1FuelRemaining t;
     stage2FuelRemaining := stage2FuelRemaining t; stage1BurnTime := stage1BurnTime t;
     stage2BurnTime := stage2BurnTime t; chamberTemperature := chamberTemperature t;
     fuelFlowRate := fuelFlowRate t; oxidizerFlowRate := oxidizerFlowRate t;
     totalFlowRate := totalFlowRate t; fuelTurbopumpRPM := fuelTurbopumpRPM t;
     oxidizerTurbopumpRPM := oxidizerTurbopumpRPM t;
     turbopumpInletPressure := turbopumpInletPressure t;
     nozzleThroatTemp := nozzleThroatTemp t; turbineInletTemp := turbineInletTemp t;
     vibrationLevel := vibrationLevel t; gimbalAngleX := gimbalAngleX t;
     gimbalAngleY := gimbalAngleY t |}.

Definition set_perigee (v : R) (t : Telemetry) : Telemetry :=
  {| altitude := altitude t; velocity := velocity t; acceleration := acceleration t;
     downrange := downrange t; apogee := apogee t; perigee := v; inclination := inclination t;
     orbitalVelocity := orbitalVelocity t; mass := mass t; thrust := thrust t; twr := twr t;
     maxQ := maxQ t; gForce := gForce t; propellantRemaining := propellantRemaining t;
     engineThrottle := engineThrottle t; chamberPressure := chamberPressure t;
     exhaustVelocity := exhaustVelocity t; pitch := pitch t; yaw := yaw t; roll := roll t;
     flightPathAngle := flightPathAngle t; dynamicPressure := dynamicPressure t;
     machNumber := machNumber t; atmosphericDensity := atmosphericDensity t;
     temperature := temperature t; stage1FuelRemaining := stage1FuelRemaining t;
     stage2FuelRemaining := stage2FuelRemaining t; stage1BurnTime := stage1BurnTime t;
     stage2BurnTime := stage2BurnTime t; chamberTemperature := chamberTemperature t;
     fuelFlowRate := fuelFlowRate t; oxidizerFlowRate := oxidizerFlowRate t;
     totalFlowRate := totalFlowRate t; fuelTurbopumpRPM := fuelTurbopumpRPM t;
     oxidizerTurbopumpRPM := oxidizerTurbopumpRPM t;
     turbopumpInletPressure := turbopumpInletPressure t;
     nozzleThroatTemp := nozzleThroatTemp t; turbineInletTemp := turbineInletTemp t;
     vibrationLevel := vibrationLevel t; gimbalAngleX := gimbalAngleX t;
     gimbalAngleY := gimbalAngleY t |}.

Definition set_inclination (v : R) (t : Telemetry) : Telemetry :=
  {| altitude := altitude t; velocity := velocity t; acceleration := acceleration t;
     downrange := downrange t; apogee := apogee t; perigee := perigee t; inclination := v;
     orbitalVelocity := orbitalVelocity t; mass := mass t; thrust := thrust t; twr := twr t;
     maxQ := maxQ t; gForce := gForce t; propellantRemaining := propellantRemaining t;
     engineThrottle := engineThrottle t; chamberPressure := chamberPressure t;
     exhaustVelocity := exhaustVelocity t; pitch := pitch t; yaw := yaw t; roll := roll t;
     flightPathAngle := flightPathAngle t; dynamicPressure := dynamicPressure t;
     machNumber := machNumber t; atmosphericDensity := atmosphericDensity t;
     temperature := temperature t; stage1FuelRemaining := stage1FuelRemaining t;
     stage2FuelRemaining := stage2FuelRemaining t; stage1BurnTime := stage1BurnTime t;
     stage2BurnTime := stage2BurnTime t; chamberTemperature := chamberTemperature t;
     fuelFlowRate := fuelFlowRate t; oxidizerFlowRate := oxidizerFlowRate t;
     totalFlowRate := totalFlowRate t; fuelTurbopumpRPM := fuelTurbopumpRPM t;
     oxidizerTurbopumpRPM := oxidizerTurbopumpRPM t;
     turbopumpInletPressure := turbopumpInletPressure t;
     nozzleThroatTemp := nozzleThroatTemp t; turbineInletTemp := turbineInletTemp t;
     vibrationLevel := vibrationLevel t; gimbalAngleX := gimbalAngleX t;
     gimbalAngleY := gimbalAngleY t |}.

Definition set_orbitalVelocity (v : R) (t : Telemetry) : Telemetry :=
  {| altitude := altitude t; velocity := velocity t; acceleration := acceleration t;
     downrange := downrange t; apogee := apogee t; perigee := perigee t;
     inclination := inclination t; orbitalVelocity := v; mass := mass t; thrust := thrust t;
     twr := twr t; maxQ := maxQ t; gForce := gForce t;
     propellantRemaining := propellantRemaining t; engineThrottle := engineThrottle t;
     chamberPressure := chamberPressure t; exhaustVelocity := exhaustVelocity t;
     pitch := pitch t; yaw := yaw t; roll := roll t; flightPathAngle := flightPathAngle t;
     dynamicPressure := dynamicPressure t; machNumber := machNumber t;
     atmosphericDensity := atmosphericDensity t; temperature := temperature t;
     stage1FuelRemaining := stage1FuelRemaining t;
     stage2FuelRemaining := stage2FuelRemaining t; stage1BurnTime := stage1BurnTime t;
     stage2BurnTime := stage2BurnTime t; chamberTemperature := chamberTemperature t;
     fuelFlowRate := fuelFlowRate t; oxidizerFlowRate := oxidizerFlowRate t;
     totalFlowRate := totalFlowRate t; fuelTurbopumpRPM := fuelTurbopumpRPM t;
     oxidizerTurbopumpRPM := oxidizerTurbopumpRPM t;
     turbopumpInletPressure := turbopumpInletPressure t;
     nozzleThroatTemp := nozzleThroatTemp t; turbineInletTemp := turbineInletTemp t;
     vibrationLevel := vibrationLevel t; gimbalAngleX := gimbalAngleX t;
     gimbalAngleY := gimbalAngleY t |}.

Definition set_mass (v : R) (t : Telemetry) : Telemetry :=
  {| altitude := altitude t; velocity := velocity t; acceleration := acceleration t;
     downrange := downrange t; apogee := apogee t; perigee := perigee t;
     inclination := inclination t; orbitalVelocity := orbitalVelocity t; mass := v;
     thrust := thrust t; twr := twr t; maxQ := maxQ t; gForce := gForce t;
     propellantRemaining := propellantRemaining t; engineThrottle := engineThrottle t;
     chamberPressure := chamberPressure t; exhaustVelocity := exhaustVelocity t;
     pitch := pitch t; yaw := yaw t; roll := roll t; flightPathAngle := flightPathAngle t;
     dynamicPressure := dynamicPressure t; machNumber := machNumber t;
     atmosphericDensity := atmosphericDensity t; temperature := temperature t;
     stage1FuelRemaining := stage1FuelRemaining t;
     stage2FuelRemaining := stage2FuelRemaining t; stage1BurnTime := stage1BurnTime t;
     stage2BurnTime := stage2BurnTime t; chamberTemperature := chamberTemperature t;
     fuelFlowRate := fuelFlowRate t; oxidizerFlowRate := oxidizerFlowRate t;
     totalFlowRate := totalFlowRate t; fuelTurbopumpRPM := fuelTurbopumpRPM t;
     oxidizerTurbopumpRPM := oxidizerTurbopumpRPM t;
     turbopumpInletPressure := turbopumpInletPressure t;
     nozzleThroatTemp := nozzleThroatTemp t; turbineInletTemp := turbineInletTemp t;
     vibrationLevel := vibrationLevel t; gimbalAngleX := gimbalAngleX t;
     gimbalAngleY := gimbalAngleY t |}.

Definition set_thrust (v : R) (t : Telemetry) : Telemetry :=
  {| altitude := altitude t; velocity := velocity t; acceleration := acceleration t;
     downrange := downrange t; apogee := apogee t; perigee := perigee t;
     inclination := inclination t; orbitalVelocity := orbitalVelocity t; mass := mass t;
     thrust := v; twr := twr t; maxQ := maxQ t; gForce := gForce t;
     propellantRemaining := propellantRemaining t; engineThrottle := engineThrottle t;
     chamberPressure := chamberPressure t; exhaustVelocity := exhaustVelocity t;
     pitch := pitch t; yaw := yaw t; roll := roll t; flightPathAngle := flightPathAngle t;
     dynamicPressure := dynamicPressure t; machNumber := machNumber t;
     atmosphericDensity := atmosphericDensity t; temperature := temperature t;
     stage1FuelRemaining := stage1FuelRemaining t;
     stage2FuelRemaining := stage2FuelRemaining t; stage1BurnTime := stage1BurnTime t;
     stage2BurnTime := stage2BurnTime t; chamberTemperature := chamberTemperature t;
     fuelFlowRate := fuelFlowRate t; oxidizerFlowRate := oxidizerFlowRate t;
     totalFlowRate := totalFlowRate t; fuelTurbopumpRPM := fuelTurbopumpRPM t;
     oxidizerTurbopumpRPM := oxidizerTurbopumpRPM t;
     turbopumpInletPressure := turbopumpInletPressure t;
     nozzleThroatTemp := nozzleThroatTemp t; turbineInletTemp := turbineInletTemp t;
     vibrationLevel := vibrationLevel t; gimbalAngleX := gimbalAngleX t;
     gimbalAngleY := gimbalAngleY t |}.

Definition set_twr (v : R) (t : Telemetry) : Telemetry :=
  {| altitude := altitude t; velocity := velocity t; acceleration := acceleration t;
     downrange := downrange t; apogee := apogee t; perigee := perigee t;
     inclination := inclination t; orbitalVelocity := orbitalVelocity t; mass := mass t;
     thrust := thrust t; twr := v; maxQ := maxQ t; gForce := gForce t;
     propellantRemaining := propellantRemaining t; engineThrottle := engineThrottle t;
     chamberPressure := chamberPressure t; exhaustVelocity := exhaustVelocity t;
     pitch := pitch t; yaw := yaw t; roll := roll t; flightPathAngle := flightPathAngle t;
     dynamicPressure := dynamicPressure t; machNumber := machNumber t;
     atmosphericDensity := atmosphericDensity t; temperature := temperature t;
     stage1FuelRemaining := stage1FuelRemaining t;
     stage2FuelRemaining := stage2FuelRemaining t; stage1BurnTime := stage1BurnTime t;
     stage2BurnTime := stage2BurnTime t; chamberTemperature := chamberTemperature t;
     fuelFlowRate := fuelFlowRate t; oxidizerFlowRate := oxidizerFlowRate t;
     totalFlowRate := totalFlowRate t; fuelTurbopumpRPM := fuelTurbopumpRPM t;
     oxidizerTurbopumpRPM := oxidizerTurbopumpRPM t;
     turbopumpInletPressure := turbopumpInletPressure t;
     nozzleThroatTemp := nozzleThroatTemp t; turbineInletTemp := turbineInletTemp t;
     vibrationLevel := vibrationLevel t; gimbalAngleX := gimbalAngleX t;
     gimbalAngleY := gimbalAngleY t |}.

Definition set_maxQ (v : R) (t : Telemetry) : Telemetry :=
  {| altitude := altitude t; velocity := velocity t; acceleration := acceleration t;
     downrange := downrange t; apogee := apogee t; perigee := perigee t;
     inclination := inclination t; orbitalVelocity := orbitalVelocity t; mass := mass t;
     thrust := thrust t; twr := twr t; maxQ := v; gForce := gForce t;
     propellantRemaining := propellantRemaining t; engineThrottle := engineThrottle t;
     chamberPressure := chamberPressure t; exhaustVelocity := exhaustVelocity t;
     pitch := pitch t; yaw := yaw t; roll := roll t; flightPathAngle := flightPathAngle t;
     dynamicPressure := dynamicPressure t; machNumber := machNumber t;
     atmosphericDensity := atmosphericDensity t; temperature := temperature t;
     stage1FuelRemaining := stage1FuelRemaining t;
     stage2FuelRemaining := stage2FuelRemaining t; stage1BurnTime := stage1BurnTime t;
     stage2BurnTime := stage2BurnTime t; chamberTemperature := chamberTemperature t;
     fuelFlowRate := fuelFlowRate t; oxidizerFlowRate := oxidizerFlowRate t;
     totalFlowRate := totalFlowRate t; fuelTurbopumpRPM := fuelTurbopumpRPM t;
     oxidizerTurbopumpRPM := oxidizerTurbopumpRPM t;
     turbopumpInletPressure := turbopumpInletPressure t;
     nozzleThroatTemp := nozzleThroatTemp t; turbineInletTemp := turbineInletTemp t;
     vibrationLevel := vibrationLevel t; gimbalAngleX := gimbalAngleX t;
     gimbalAngleY := gimbalAngleY t |}.

Definition set_gForce (v : R) (t : Telemetry) : Telemetry :=
  {| altitude := altitude t; velocity := velocity t; acceleration := acceleration t;
     downrange := downrange t; apogee := apogee t; perigee := perigee t;
     inclination := inclination t; orbitalVelocity := orbitalVelocity t; mass := mass t;
     thrust := thrust t; twr := twr t; maxQ := maxQ t; gForce := v;
     propellantRemaining := propellantRemaining t; engineThrottle := engineThrottle t;
     chamberPressure := chamberPressure t; exhaustVelocity := exhaustVelocity t;
     pitch := pitch t; yaw := yaw t; roll := roll t; flightPathAngle := flightPathAngle t;
     dynamicPressure := dynamicPressure t; machNumber := machNumber t;
     atmosphericDensity := atmosphericDensity t; temperature := temperature t;
     stage1FuelRemaining := stage1FuelRemaining t;
     stage2FuelRemaining := stage2FuelRemaining t; stage1BurnTime := stage1BurnTime t;
     stage2BurnTime := stage2BurnTime t; chamberTemperature := chamberTemperature t;
     fuelFlowRate := fuelFlowRate t; oxidizerFlowRate := oxidizerFlowRate t;
     totalFlowRate := totalFlowRate t; fuelTurbopumpRPM := fuelTurbopumpRPM t;
     oxidizerTurbopumpRPM := oxidizerTurbopumpRPM t;
     turbopumpInletPressure := turbopumpInletPressure t;
     nozzleThroatTemp := nozzleThroatTemp t; turbineInletTemp := turbineInletTemp t;
     vibrationLevel := vibrationLevel t; gimbalAngleX := gimbalAngleX t;
     gimbalAngleY := gimbalAngleY t |}.

Definition set_propellantRemaining (v : R) (t : Telemetry) : Telemetry :=
  {| altitude := altitude t; velocity := velocity t; acceleration := acceleration t;
     downrange := downrange t; apogee := apogee t; perigee := perigee t;
     inclination := inclination t; orbitalVelocity := orbitalVelocity t; mass := mass t;
     thrust := thrust t; twr := twr t; maxQ := maxQ t; gForce := gForce t;
     propellantRemaining := v; engineThrottle := engineThrottle t;
     chamberPressure := chamberPressure t; exhaustVelocity := exhaustVelocity t;
     pitch := pitch t; yaw := yaw t; roll := roll t; flightPathAngle := flightPathAngle t;
     dynamicPressure := dynamicPressure t; machNumber := machNumber t;
     atmosphericDensity := atmosphericDensity t; temperature := temperature t;
     stage1FuelRemaining := stage1FuelRemaining t;
     stage2FuelRemaining := stage2FuelRemaining t; stage1BurnTime := stage1BurnTime t;
     stage2BurnTime := stage2BurnTime t; chamberTemperature := chamberTemperature t;
     fuelFlowRate := fuelFlowRate t; oxidizerFlowRate := oxidizerFlowRate t;
     totalFlowRate := totalFlowRate t; fuelTurbopumpRPM := fuelTurbopumpRPM t;
     oxidizerTurbopumpRPM := oxidizerTurbopumpRPM t;
     turbopumpInletPressure := turbopumpInletPressure t;
     nozzleThroatTemp := nozzleThroatTemp t; turbineInletTemp := turbineInletTemp t;
     vibrationLevel := vibrationLevel t; gimbalAngleX := gimbalAngleX t;
     gimbalAngleY := gimbalAngleY t |}.

Definition set_engineThrottle (v : R) (t : Telemetry) : Telemetry :=
  {| altitude := altitude t; velocity := velocity t; acceleration := acceleration t;
     downrange := downrange t; apogee := apogee t; perigee := perigee t;
     inclination := inclination t; orbitalVelocity := orbitalVelocity t; mass := mass t;
     thrust := thrust t; twr := twr t; maxQ := maxQ t; gForce := gForce t;
     propellantRemaining := propellantRemaining t; engineThrottle := v;
     chamberPressure := chamberPressure t; exhaustVelocity := exhaustVelocity t;
     pitch := pitch t; yaw := yaw t; roll := roll t; flightPathAngle := flightPathAngle t;
     dynamicPressure := dynamicPressure t; machNumber := machNumber t;
     atmosphericDensity := atmosphericDensity t; temperature := temperature t;
     stage1FuelRemaining := stage1FuelRemaining t;
     stage2FuelRemaining := stage2FuelRemaining t; stage1BurnTime := stage1BurnTime t;
     stage2BurnTime := stage2BurnTime t; chamberTemperature := chamberTemperature t;
     fuelFlowRate := fuelFlowRate t; oxidizerFlowRate := oxidizerFlowRate t;
     totalFlowRate := totalFlowRate t; fuelTurbopumpRPM := fuelTurbopumpRPM t;
     oxidizerTurbopumpRPM := oxidizerTurbopumpRPM t;
     turbopumpInletPressure := turbopumpInletPressure t;
     nozzleThroatTemp := nozzleThroatTemp t; turbineInletTemp := turbineInletTemp t;
     vibrationLevel := vibrationLevel t; gimbalAngleX := gimbalAngleX t;
     gimbalAngleY := gimbalAngleY t |}.

Definition set_chamberPressure (v : R) (t : Telemetry) : Telemetry :=
  {| altitude := altitude t; velocity := velocity t; acceleration := acceleration t;
     downrange := downrange t; apogee := apogee t; perigee := perigee t;
     inclination := inclination t; orbitalVelocity := orbitalVelocity t; mass := mass t;
     thrust := thrust t; twr := twr t; maxQ := maxQ t; gForce := gForce t;
     propellantRemaining := propellantRemaining t; engineThrottle := engineThrottle t;
     chamberPressure := v; exhaustVelocity := exhaustVelocity t; pitch := pitch t;
     yaw := yaw t; roll := roll t; flightPathAngle := flightPathAngle t;
     dynamicPressure := dynamicPressure t; machNumber := machNumber t;
     atmosphericDensity := atmosphericDensity t; temperature := temperature t;
     stage1FuelRemaining := stage1FuelRemaining t;
     stage2FuelRemaining := stage2FuelRemaining t; stage1BurnTime := stage1BurnTime t;
     stage2BurnTime := stage2BurnTime t; chamberTemperature := chamberTemperature t;
     fuelFlowRate := fuelFlowRate t; oxidizerFlowRate := oxidizerFlowRate t;
     totalFlowRate := totalFlowRate t; fuelTurbopumpRPM := fuelTurbopumpRPM t;
     oxidizerTurbopumpRPM := oxidizerTurbopumpRPM t;
     turbopumpInletPressure := turbopumpInletPressure t;
     nozzleThroatTemp := nozzleThroatTemp t; turbineInletTemp := turbineInletTemp t;
     vibrationLevel := vibrationLevel t; gimbalAngleX := gimbalAngleX t;
     gimbalAngleY := gimbalAngleY t |}.

Definition set_exhaustVelocity (v : R) (t : Telemetry) : Telemetry :=
  {| altitude := altitude t; velocity := velocity t; acceleration := acceleration t;
     downrange := downrange t; apogee := apogee t; perigee := perigee t;
     inclination := inclination t; orbitalVelocity := orbitalVelocity t; mass := mass t;
     thrust := thrust t; twr := twr t; maxQ := maxQ t; gForce := gForce t;
     propellantRemaining := propellantRemaining t; engineThrottle := engineThrottle t;
     chamberPressure := chamberPressure t; exhaustVelocity := v; pitch := pitch t;
     yaw := yaw t; roll := roll t; flightPathAngle := flightPathAngle t;
     dynamicPressure := dynamicPressure t; machNumber := machNumber t;
     atmosphericDensity := atmosphericDensity t; temperature := temperature t;
     stage1FuelRemaining := stage1FuelRemaining t;
     stage2FuelRemaining := stage2FuelRemaining t; stage1BurnTime := stage1BurnTime t;
     stage2BurnTime := stage2BurnTime t; chamberTemperature := chamberTemperature t;
     fuelFlowRate := fuelFlowRate t; oxidizerFlowRate := oxidizerFlowRate t;
     totalFlowRate := totalFlowRate t; fuelTurbopumpRPM := fuelTurbopumpRPM t;
     oxidizerTurbopumpRPM := oxidizerTurbopumpRPM t;
     turbopumpInletPressure := turbopumpInletPressure t;
     nozzleThroatTemp := nozzleThroatTemp t; turbineInletTemp := turbineInletTemp t;
     vibrationLevel := vibrationLevel t; gimbalAngleX := gimbalAngleX t;
     gimbalAngleY := gimbalAngleY t |}.

Definition set_pitch (v : R) (t : Telemetry) : Telemetry :=
  {| altitude := altitude t; velocity := velocity t; acceleration := acceleration t;
     downrange := downrange t; apogee := apogee t; perigee := perigee t;
     inclination := inclination t; orbitalVelocity := orbitalVelocity t; mass := mass t;
     thrust := thrust t; twr := twr t; maxQ := maxQ t; gForce := gForce t;
     propellantRemaining := propellantRemaining t; engineThrottle := engineThrottle t;
     chamberPressure := chamberPressure t; exhaustVelocity := exhaustVelocity t; pitch := v;
     yaw := yaw t; roll := roll t; flightPathAngle := flightPathAngle t;
     dynamicPressure := dynamicPressure t; machNumber := machNumber t;
     atmosphericDensity := atmosphericDensity t; temperature := temperature t;
     stage1FuelRemaining := stage1FuelRemaining t;
     stage2FuelRemaining := stage2FuelRemaining t; stage1BurnTime := stage1BurnTime t;
     stage2BurnTime := stage2BurnTime t; chamberTemperature := chamberTemperature t;
     fuelFlowRate := fuelFlowRate t; oxidizerFlowRate := oxidizerFlowRate t;
     totalFlowRate := totalFlowRate t; fuelTurbopumpRPM := fuelTurbopumpRPM t;
     oxidizerTurbopumpRPM := oxidizerTurbopumpRPM t;
     turbopumpInletPressure := turbopumpInletPressure t;
     nozzleThroatTemp := nozzleThroatTemp t; turbineInletTemp := turbineInletTemp t;
     vibrationLevel := vibrationLevel t; gimbalAngleX := gimbalAngleX t;
     gimbalAngleY := gimbalAngleY t |}.

Definition set_yaw (v : R) (t : Telemetry) : Telemetry :=
  {| altitude := altitude t; velocity := velocity t; acceleration := acceleration t;
     downrange := downrange t; apogee := apogee t; perigee := perigee t;
     inclination := inclination t; orbitalVelocity := orbitalVelocity t; mass := mass t;
     thrust := thrust t; twr := twr t; maxQ := maxQ t; gForce := gForce t;
     propellantRemaining := propellantRemaining t; engineThrottle := engineThrottle t;
     chamberPressure := chamberPressure t; exhaustVelocity := exhaustVelocity t;
     pitch := pitch t; yaw := v; roll := roll t; flightPathAngle := flightPathAngle t;
     dynamicPressure := dynamicPressure t; machNumber := machNumber t;
     atmosphericDensity := atmosphericDensity t; temperature := temperature t;
     stage1FuelRemaining := stage1FuelRemaining t;
     stage2FuelRemaining := stage2FuelRemaining t; stage1BurnTime := stage1BurnTime t;
     stage2BurnTime := stage2BurnTime t; chamberTemperature := chamberTemperature t;
     fuelFlowRate := fuelFlowRate t; oxidizerFlowRate := oxidizerFlowRate t;
     totalFlowRate := totalFlowRate t; fuelTurbopumpRPM := fuelTurbopumpRPM t;
     oxidizerTurbopumpRPM := oxidizerTurbopumpRPM t;
     turbopumpInletPressure := turbopumpInletPressure t;
     nozzleThroatTemp := nozzleThroatTemp t; turbineInletTemp := turbineInletTemp t;
     vibrationLevel := vibrationLevel t; gimbalAngleX := gimbalAngleX t;
     gimbalAngleY := gimbalAngleY t |}.

Definition set_roll (v : R) (t : Telemetry) : Telemetry :=
  {| altitude := altitude t; velocity := velocity t; acceleration := acceleration t;
     downrange := downrange t; apogee := apogee t; perigee := perigee t;
     inclination := inclination t; orbitalVelocity := orbitalVelocity t; mass := mass t;
     thrust := thrust t; twr := twr t; maxQ := maxQ t; gForce := gForce t;
     propellantRemaining := propellantRemaining t; engineThrottle := engineThrottle t;
     chamberPressure := chamberPressure t; exhaustVelocity := exhaustVelocity t;
     pitch := pitch t; yaw := yaw t; roll := v; flightPathAngle := flightPathAngle t;
     dynamicPressure := dynamicPressure t; machNumber := machNumber t;
     atmosphericDensity := atmosphericDensity t; temperature := temperature t;
     stage1FuelRemaining := stage1FuelRemaining t;
     stage2FuelRemaining := stage2FuelRemaining t; stage1BurnTime := stage1BurnTime t;
     stage2BurnTime := stage2BurnTime t; chamberTemperature := chamberTemperature t;
     fuelFlowRate := fuelFlowRate t; oxidizerFlowRate := oxidizerFlowRate t;
     totalFlowRate := totalFlowRate t; fuelTurbopumpRPM := fuelTurbopumpRPM t;
     oxidizerTurbopumpRPM := oxidizerTurbopumpRPM t;
     turbopumpInletPressure := turbopumpInletPressure t;
     nozzleThroatTemp := nozzleThroatTemp t; turbineInletTemp := turbineInletTemp t;
     vibrationLevel := vibrationLevel t; gimbalAngleX := gimbalAngleX t;
     gimbalAngleY := gimbalAngleY t |}.

Definition set_flightPathAngle (v : R) (t : Telemetry) : Telemetry :=
  {| altitude := altitude t; velocity := velocity t; acceleration := acceleration t;
     downrange := downrange t; apogee := apogee t; perigee := perigee t;
     inclination := inclination t; orbitalVelocity := orbitalVelocity t; mass := mass t;
     thrust := thrust t; twr := twr t; maxQ := maxQ t; gForce := gForce t;
     propellantRemaining := propellantRemaining t; engineThrottle := engineThrottle t;
     chamberPressure := chamberPressure t; exhaustVelocity := exhaustVelocity t;
     pitch := pitch t; yaw := yaw t; roll := roll t; flightPathAngle := v;
     dynamicPressure := dynamicPressure t; machNumber := machNumber t;
     atmosphericDensity := atmosphericDensity t; temperature := temperature t;
     stage1FuelRemaining := stage1FuelRemaining t;
     stage2FuelRemaining := stage2FuelRemaining t; stage1BurnTime := stage1BurnTime t;
     stage2BurnTime := stage2BurnTime t; chamberTemperature := chamberTemperature t;
     fuelFlowRate := fuelFlowRate t; oxidizerFlowRate := oxidizerFlowRate t;
     totalFlowRate := totalFlowRate t; fuelTurbopumpRPM := fuelTurbopumpRPM t;
     oxidizerTurbopumpRPM := oxidizerTurbopumpRPM t;
     turbopumpInletPressure := turbopumpInletPressure t;
     nozzleThroatTemp := nozzleThroatTemp t; turbineInletTemp := turbineInletTemp t;
     vibrationLevel := vibrationLevel t; gimbalAngleX := gimbalAngleX t;
     gimbalAngleY := gimbalAngleY t |}.

Definition set_dynamicPressure (v : R) (t : Telemetry) : Telemetry :=
  {| altitude := altitude t; velocity := velocity t; acceleration := acceleration t;
     downrange := downrange t; apogee := apogee t; perigee := perigee t;
     inclination := inclination t; orbitalVelocity := orbitalVelocity t; mass := mass t;
     thrust := thrust t; twr := twr t; maxQ := maxQ t; gForce := gForce t;
     propellantRemaining := propellantRemaining t; engineThrottle := engineThrottle t;
     chamberPressure := chamberPressure t; exhaustVelocity := exhaustVelocity t;
     pitch := pitch t; yaw := yaw t; roll := roll t; flightPathAngle := flightPathAngle t;
     dynamicPressure := v; machNumber := machNumber t;
     atmosphericDensity := atmosphericDensity t; temperature := temperature t;
     stage1FuelRemaining := stage1FuelRemaining t;
     stage2FuelRemaining := stage2FuelRemaining t; stage1BurnTime := stage1BurnTime t;
     stage2BurnTime := stage2BurnTime t; chamberTemperature := chamberTemperature t;
     fuelFlowRate := fuelFlowRate t; oxidizerFlowRate := oxidizerFlowRate t;
     totalFlowRate := totalFlowRate t; fuelTurbopumpRPM := fuelTurbopumpRPM t;
     oxidizerTurbopumpRPM := oxidizerTurbopumpRPM t;
     turbopumpInletPressure := turbopumpInletPressure t;
     nozzleThroatTemp := nozzleThroatTemp t; turbineInletTemp := turbineInletTemp t;
     vibrationLevel := vibrationLevel t; gimbalAngleX := gimbalAngleX t;
     gimbalAngleY := gimbalAngleY t |}.

Definition set_machNumber (v : R) (t : Telemetry) : Telemetry :=
  {| altitude := altitude t; velocity := velocity t; acceleration := acceleration t;
     downrange := downrange t; apogee := apogee t; perigee := perigee t;
     inclination := inclination t; orbitalVelocity := orbitalVelocity t; mass := mass t;
     thrust := thrust t; twr := twr t; maxQ := maxQ t; gForce := gForce t;
     propellantRemaining := propellantRemaining t; engineThrottle := engineThrottle t;
     chamberPressure := chamberPressure t; exhaustVelocity := exhaustVelocity t;
     pitch := pitch t; yaw := yaw t; roll := roll t; flightPathAngle := flightPathAngle t;
     dynamicPressure := dynamicPressure t; machNumber := v;
     atmosphericDensity := atmosphericDensity t; temperature := temperature t;
     stage1FuelRemaining := stage1FuelRemaining t;
     stage2FuelRemaining := stage2FuelRemaining t; stage1BurnTime := stage1BurnTime t;
     stage2BurnTime := stage2BurnTime t; chamberTemperature := chamberTemperature t;
     fuelFlowRate := fuelFlowRate t; oxidizerFlowRate := oxidizerFlowRate t;
     totalFlowRate := totalFlowRate t; fuelTurbopumpRPM := fuelTurbopumpRPM t;
     oxidizerTurbopumpRPM := oxidizerTurbopumpRPM t;
     turbopumpInletPressure := turbopumpInletPressure t;
     nozzleThroatTemp := nozzleThroatTemp t; turbineInletTemp := turbineInletTemp t;
     vibrationLevel := vibrationLevel t; gimbalAngleX := gimbalAngleX t;
     gimbalAngleY := gimbalAngleY t |}.

Definition set_atmosphericDensity (v : R) (t : Telemetry) : Telemetry :=
  {| altitude := altitude t; velocity := velocity t; acceleration := acceleration t;
     downrange := downrange t; apogee := apogee t; perigee := perigee t;
     inclination := inclination t; orbitalVelocity := orbitalVelocity t; mass := mass t;
     thrust := thrust t; twr := twr t; maxQ := maxQ t; gForce := gForce t;
     propellantRemaining := propellantRemaining t; engineThrottle := engineThrottle t;
     chamberPressure := chamberPressure t; exhaustVelocity := exhaustVelocity t;
     pitch := pitch t; yaw := yaw t; roll := roll t; flightPathAngle := flightPathAngle t;
     dynamicPressure := dynamicPressure t; machNumber := machNumber t; atmosphericDensity := v;
     temperature := temperature t; stage1FuelRemaining := stage1FuelRemaining t;
     stage2FuelRemaining := stage2FuelRemaining t; stage1BurnTime := stage1BurnTime t;
     stage2BurnTime := stage2BurnTime t; chamberTemperature := chamberTemperature t;
     fuelFlowRate := fuelFlowRate t; oxidizerFlowRate := oxidizerFlowRate t;
     totalFlowRate := totalFlowRate t; fuelTurbopumpRPM := fuelTurbopumpRPM t;
     oxidizerTurbopumpRPM := oxidizerTurbopumpRPM t;
     turbopumpInletPressure := turbopumpInletPressure t;
     nozzleThroatTemp := nozzleThroatTemp t; turbineInletTemp := turbineInletTemp t;
     vibrationLevel := vibrationLevel t; gimbalAngleX := gimbalAngleX t;
     gimbalAngleY := gimbalAngleY t |}.

Definition set_temperature (v : R) (t : Telemetry) : Telemetry :=
  {| altitude := altitude t; velocity := velocity t; acceleration := acceleration t;
     downrange := downrange t; apogee := apogee t; perigee := perigee t;
     inclination := inclination t; orbitalVelocity := orbitalVelocity t; mass := mass t;
     thrust := thrust t; twr := twr t; maxQ := maxQ t; gForce := gForce t;
     propellantRemaining := propellantRemaining t; engineThrottle := engineThrottle t;
     chamberPressure := chamberPressure t; exhaustVelocity := exhaustVelocity t;
     pitch := pitch t; yaw := yaw t; roll := roll t; flightPathAngle := flightPathAngle t;
     dynamicPressure := dynamicPressure t; machNumber := machNumber t;
     atmosphericDensity := atmosphericDensity t; temperature := v;
     stage1FuelRemaining := stage1FuelRemaining t;
     stage2FuelRemaining := stage2FuelRemaining t; stage1BurnTime := stage1BurnTime t;
     stage2BurnTime := stage2BurnTime t; chamberTemperature := chamberTemperature t;
     fuelFlowRate := fuelFlowRate t; oxidizerFlowRate := oxidizerFlowRate t;
     totalFlowRate := totalFlowRate t; fuelTurbopumpRPM := fuelTurbopumpRPM t;
     oxidizerTurbopumpRPM := oxidizerTurbopumpRPM t;
     turbopumpInletPressure := turbopumpInletPressure t;
     nozzleThroatTemp := nozzleThroatTemp t; turbineInletTemp := turbineInletTemp t;
     vibrationLevel := vibrationLevel t; gimbalAngleX := gimbalAngleX t;
     gimbalAngleY := gimbalAngleY t |}.

Definition set_stage1FuelRemaining (v : R) (t : Telemetry) : Telemetry :=
  {| altitude := altitude t; velocity := velocity t; acceleration := acceleration t;
     downrange := downrange t; apogee := apogee t; perigee := perigee t;
     inclination := inclination t; orbitalVelocity := orbitalVelocity t; mass := mass t;
     thrust := thrust t; twr := twr t; maxQ := maxQ t; gForce := gForce t;
     propellantRemaining := propellantRemaining t; engineThrottle := engineThrottle t;
     chamberPressure := chamberPressure t; exhaustVelocity := exhaustVelocity t;
     pitch := pitch t; yaw := yaw t; roll := roll t; flightPathAngle := flightPathAngle t;
     dynamicPressure := dynamicPressure t; machNumber := machNumber t;
     atmosphericDensity := atmosphericDensity t; temperature := temperature t;
     stage1FuelRemaining := v; stage2FuelRemaining := stage2FuelRemaining t;
     stage1BurnTime := stage1BurnTime t; stage2BurnTime := stage2BurnTime t;
     chamberTemperature := chamberTemperature t; fuelFlowRate := fuelFlowRate t;
     oxidizerFlowRate := oxidizerFlowRate t; totalFlowRate := totalFlowRate t;
     fuelTurbopumpRPM := fuelTurbopumpRPM t; oxidizerTurbopumpRPM := oxidizerTurbopumpRPM t;
     turbopumpInletPressure := turbopumpInletPressure t;
     nozzleThroatTemp := nozzleThroatTemp t; turbineInletTemp := turbineInletTemp t;
     vibrationLevel := vibrationLevel t; gimbalAngleX := gimbalAngleX t;
     gimbalAngleY := gimbalAngleY t |}.

Definition set_stage2FuelRemaining (v : R) (t : Telemetry) : Telemetry :=
  {| altitude := altitude t; velocity := velocity t; acceleration := acceleration t;
     downrange := downrange t; apogee := apogee t; perigee := perigee t;
     inclination := inclination t; orbitalVelocity := orbitalVelocity t; mass := mass t;
     thrust := thrust t; twr := twr t; maxQ := maxQ t; gForce := gForce t;
     propellantRemaining := propellantRemaining t; engineThrottle := engineThrottle t;
     chamberPressure := chamberPressure t; exhaustVelocity := exhaustVelocity t;
     pitch := pitch t; yaw := yaw t; roll := roll t; flightPathAngle := flightPathAngle t;
     dynamicPressure := dynamicPressure t; machNumber := machNumber t;
     atmosphericDensity := atmosphericDensity t; temperature := temperature t;
     stage1FuelRemaining := stage1FuelRemaining t; stage2FuelRemaining := v;
     stage1BurnTime := stage1BurnTime t; stage2BurnTime := stage2BurnTime t;
     chamberTemperature := chamberTemperature t; fuelFlowRate := fuelFlowRate t;
     oxidizerFlowRate := oxidizerFlowRate t; totalFlowRate := totalFlowRate t;
     fuelTurbopumpRPM := fuelTurbopumpRPM t; oxidizerTurbopumpRPM := oxidizerTurbopumpRPM t;
     turbopumpInletPressure := turbopumpInletPressure t;
     nozzleThroatTemp := nozzleThroatTemp t; turbineInletTemp := turbineInletTemp t;
     vibrationLevel := vibrationLevel t; gimbalAngleX := gimbalAngleX t;
     gimbalAngleY := gimbalAngleY t |}.

Definition set_stage1BurnTime (v : R) (t : Telemetry) : Telemetry :=
  {| altitude := altitude t; velocity := velocity t; acceleration := acceleration t;
     downrange := downrange t; apogee := apogee t; perigee := perigee t;
     inclination := inclination t; orbitalVelocity := orbitalVelocity t; mass := mass t;
     thrust := thrust t; twr := twr t; maxQ := maxQ t; gForce := gForce t;
     propellantRemaining := propellantRemaining t; engineThrottle := engineThrottle t;
     chamberPressure := chamberPressure t; exhaustVelocity := exhaustVelocity t;
     pitch := pitch t; yaw := yaw t; roll := roll t; flightPathAngle := flightPathAngle t;
     dynamicPressure := dynamicPressure t; machNumber := machNumber t;
     atmosphericDensity := atmosphericDensity t; temperature := temperature t;
     stage1FuelRemaining := stage1FuelRemaining t;
     stage2FuelRemaining := stage2FuelRemaining t; stage1BurnTime := v;
     stage2BurnTime := stage2BurnTime t; chamberTemperature := chamberTemperature t;
     fuelFlowRate := fuelFlowRate t; oxidizerFlowRate := oxidizerFlowRate t;
     totalFlowRate := totalFlowRate t; fuelTurbopumpRPM := fuelTurbopumpRPM t;
     oxidizerTurbopumpRPM := oxidizerTurbopumpRPM t;
     turbopumpInletPressure := turbopumpInletPressure t;
     nozzleThroatTemp := nozzleThroatTemp t; turbineInletTemp := turbineInletTemp t;
     vibrationLevel := vibrationLevel t; gimbalAngleX := gimbalAngleX t;
     gimbalAngleY := gimbalAngleY t |}.

Definition set_stage2BurnTime (v : R) (t : Telemetry) : Telemetry :=
  {| altitude := altitude t; velocity := velocity t; acceleration := acceleration t;
     downrange := downrange t; apogee := apogee t; perigee := perigee t;
     inclination := inclination t; orbitalVelocity := orbitalVelocity t; mass := mass t;
     thrust := thrust t; twr := twr t; maxQ := maxQ t; gForce := gForce t;
     propellantRemaining := propellantRemaining t; engineThrottle := engineThrottle t;
     chamberPressure := chamberPressure t; exhaustVelocity := exhaustVelocity t;
     pitch := pitch t; yaw := yaw t; roll := roll t; flightPathAngle := flightPathAngle t;
     dynamicPressure := dynamicPressure t; machNumber := machNumber t;
     atmosphericDensity := atmosphericDensity t; temperature := temperature t;
     stage1FuelRemaining := stage1FuelRemaining t;
     stage2FuelRemaining := stage2FuelRemaining t; stage1BurnTime := stage1BurnTime t;
     stage2BurnTime := v; chamberTemperature := chamberTemperature t;
     fuelFlowRate := fuelFlowRate t; oxidizerFlowRate := oxidizerFlowRate t;
     totalFlowRate := totalFlowRate t; fuelTurbopumpRPM := fuelTurbopumpRPM t;
     oxidizerTurbopumpRPM := oxidizerTurbopumpRPM t;
     turbopumpInletPressure := turbopumpInletPressure t;
     nozzleThroatTemp := nozzleThroatTemp t; turbineInletTemp := turbineInletTemp t;
     vibrationLevel := vibrationLevel t; gimbalAngleX := gimbalAngleX t;
     gimbalAngleY := gimbalAngleY t |}.

Definition set_chamberTemperature (v : jsnum) (t : Telemetry) : Telemetry :=
  {| altitude := altitude t; velocity := velocity t; acceleration := acceleration t;
     downrange := downrange t; apogee := apogee t; perigee := perigee t;
     inclination := inclination t; orbitalVelocity := orbitalVelocity t; mass := mass t;
     thrust := thrust t; twr := twr t; maxQ := maxQ t; gForce := gForce t;
     propellantRemaining := propellantRemaining t; engineThrottle := engineThrottle t;
     chamberPressure := chamberPressure t; exhaustVelocity := exhaustVelocity t;
     pitch := pitch t; yaw := yaw t; roll := roll t; flightPathAngle := flightPathAngle t;
     dynamicPressure := dynamicPressure t; machNumber := machNumber t;
     atmosphericDensity := atmosphericDensity t; temperature := temperature t;
     stage1FuelRemaining := stage1FuelRemaining t;
     stage2FuelRemaining := stage2FuelRemaining t; stage1BurnTime := stage1BurnTime t;
     stage2BurnTime := stage2BurnTime t; chamberTemperature := v;
     fuelFlowRate := fuelFlowRate t; oxidizerFlowRate := oxidizerFlowRate t;
     totalFlowRate := totalFlowRate t; fuelTurbopumpRPM := fuelTurbopumpRPM t;
     oxidizerTurbopumpRPM := oxidizerTurbopumpRPM t;
     turbopumpInletPressure := turbopumpInletPressure t;
     nozzleThroatTemp := nozzleThroatTemp t; turbineInletTemp := turbineInletTemp t;
     vibrationLevel := vibrationLevel t; gimbalAngleX := gimbalAngleX t;
     gimbalAngleY := gimbalAngleY t |}.

Definition set_fuelFlowRate (v : jsnum) (t : Telemetry) : Telemetry :=
  {| altitude := altitude t; velocity := velocity t; acceleration := acceleration t;
     downrange := downrange t; apogee := apogee t; perigee := perigee t;
     inclination := inclination t; orbitalVelocity := orbitalVelocity t; mass := mass t;
     thrust := thrust t; twr := twr t; maxQ := maxQ t; gForce := gForce t;
     propellantRemaining := propellantRemaining t; engineThrottle := engineThrottle t;
     chamberPressure := chamberPressure t; exhaustVelocity := exhaustVelocity t;
     pitch := pitch t; yaw := yaw t; roll := roll t; flightPathAngle := flightPathAngle t;
     dynamicPressure := dynamicPressure t; machNumber := machNumber t;
     atmosphericDensity := atmosphericDensity t; temperature := temperature t;
     stage1FuelRemaining := stage1FuelRemaining t;
     stage2FuelRemaining := stage2FuelRemaining t; stage1BurnTime := stage1BurnTime t;
     stage2BurnTime := stage2BurnTime t; chamberTemperature := chamberTemperature t;
     fuelFlowRate := v; oxidizerFlowRate := oxidizerFlowRate t;
     totalFlowRate := totalFlowRate t; fuelTurbopumpRPM := fuelTurbopumpRPM t;
     oxidizerTurbopumpRPM := oxidizerTurbopumpRPM t;
     turbopumpInletPressure := turbopumpInletPressure t;
     nozzleThroatTemp := nozzleThroatTemp t; turbineInletTemp := turbineInletTemp t;
     vibrationLevel := vibrationLevel t; gimbalAngleX := gimbalAngleX t;
     gimbalAngleY := gimbalAngleY t |}.

Definition set_oxidizerFlowRate (v : jsnum) (t : Telemetry) : Telemetry :=
  {| altitude := altitude t; velocity := velocity t; acceleration := acceleration t;
     downrange := downrange t; apogee := apogee t; perigee := perigee t;
     inclination := inclination t; orbitalVelocity := orbitalVelocity t; mass := mass t;
     thrust := thrust t; twr := twr t; maxQ := maxQ t; gForce := gForce t;
     propellantRemaining := propellantRemaining t; engineThrottle := engineThrottle t;
     chamberPressure := chamberPressure t; exhaustVelocity := exhaustVelocity t;
     pitch := pitch t; yaw := yaw t; roll := roll t; flightPathAngle := flightPathAngle t;
     dynamicPressure := dynamicPressure t; machNumber := machNumber t;
     atmosphericDensity := atmosphericDensity t; temperature := temperature t;
     stage1FuelRemaining := stage1FuelRemaining t;
     stage2FuelRemaining := stage2FuelRemaining t; stage1BurnTime := stage1BurnTime t;
     stage2BurnTime := stage2BurnTime t; chamberTemperature := chamberTemperature t;
     fuelFlowRate := fuelFlowRate t; oxidizerFlowRate := v; totalFlowRate := totalFlowRate t;
     fuelTurbopumpRPM := fuelTurbopumpRPM t; oxidizerTurbopumpRPM := oxidizerTurbopumpRPM t;
     turbopumpInletPressure := turbopumpInletPressure t;
     nozzleThroatTemp := nozzleThroatTemp t; turbineInletTemp := turbineInletTemp t;
     vibrationLevel := vibrationLevel t; gimbalAngleX := gimbalAngleX t;
     gimbalAngleY := gimbalAngleY t |}.

Definition set_totalFlowRate (v : jsnum) (t : Telemetry) : Telemetry :=
  {| altitude := altitude t; velocity := velocity t; acceleration := acceleration t;
     downrange := downrange t; apogee := apogee t; perigee := perigee t;
     inclination := inclination t; orbitalVelocity := orbitalVelocity t; mass := mass t;
     thrust := thrust t; twr := twr t; maxQ := maxQ t; gForce := gForce t;
     propellantRemaining := propellantRemaining t; engineThrottle := engineThrottle t;
     chamberPressure := chamberPressure t; exhaustVelocity := exhaustVelocity t;
     pitch := pitch t; yaw := yaw t; roll := roll t; flightPathAngle := flightPathAngle t;
     dynamicPressure := dynamicPressure t; machNumber := machNumber t;
     atmosphericDensity := atmosphericDensity t; temperature := temperature t;
     stage1FuelRemaining := stage1FuelRemaining t;
     stage2FuelRemaining := stage2FuelRemaining t; stage1BurnTime := stage1BurnTime t;
     stage2BurnTime := stage2BurnTime t; chamberTemperature := chamberTemperature t;
     fuelFlowRate := fuelFlowRate t; oxidizerFlowRate := oxidizerFlowRate t;
     totalFlowRate := v; fuelTurbopumpRPM := fuelTurbopumpRPM t;
     oxidizerTurbopumpRPM := oxidizerTurbopumpRPM t;
     turbopumpInletPressure := turbopumpInletPressure t;
     nozzleThroatTemp := nozzleThroatTemp t; turbineInletTemp := turbineInletTemp t;
     vibrationLevel := vibrationLevel t; gimbalAngleX := gimbalAngleX t;
     gimbalAngleY := gimbalAngleY t |}.

Definition set_fuelTurbopumpRPM (v : jsnum) (t : Telemetry) : Telemetry :=
  {| altitude := altitude t; velocity := velocity t; acceleration := acceleration t;
     downrange := downrange t; apogee := apogee t; perigee := perigee t;
     inclination := inclination t; orbitalVelocity := orbitalVelocity t; mass := mass t;
     thrust := thrust t; twr := twr t; maxQ := maxQ t; gForce := gForce t;
     propellantRemaining := propellantRemaining t; engineThrottle := engineThrottle t;
     chamberPressure := chamberPressure t; exhaustVelocity := exhaustVelocity t;
     pitch := pitch t; yaw := yaw t; roll := roll t; flightPathAngle := flightPathAngle t;
     dynamicPressure := dynamicPressure t; machNumber := machNumber t;
     atmosphericDensity := atmosphericDensity t; temperature := temperature t;
     stage1FuelRemaining := stage1FuelRemaining t;
     stage2FuelRemaining := stage2FuelRemaining t; stage1BurnTime := stage1BurnTime t;
     stage2BurnTime := stage2BurnTime t; chamberTemperature := chamberTemperature t;
     fuelFlowRate := fuelFlowRate t; oxidizerFlowRate := oxidizerFlowRate t;
     totalFlowRate := totalFlowRate t; fuelTurbopumpRPM := v;
     oxidizerTurbopumpRPM := oxidizerTurbopumpRPM t;
     turbopumpInletPressure := turbopumpInletPressure t;
     nozzleThroatTemp := nozzleThroatTemp t; turbineInletTemp := turbineInletTemp t;
     vibrationLevel := vibrationLevel t; gimbalAngleX := gimbalAngleX t;
     gimbalAngleY := gimbalAngleY t |}.

Definition set_oxidizerTurbopumpRPM (v : jsnum) (t : Telemetry) : Telemetry :=
  {| altitude := altitude t; velocity := velocity t; acceleration := acceleration t;
     downrange := downrange t; apogee := apogee t; perigee := perigee t;
     inclination := inclination t; orbitalVelocity := orbitalVelocity t; mass := mass t;
     thrust := thrust t; twr := twr t; maxQ := maxQ t; gForce := gForce t;
     propellantRemaining := propellantRemaining t; engineThrottle := engineThrottle t;
     chamberPressure := chamberPressure t; exhaustVelocity := exhaustVelocity t;
     pitch := pitch t; yaw := yaw t; roll := roll t; flightPathAngle := flightPathAngle t;
     dynamicPressure := dynamicPressure t; machNumber := machNumber t;
     atmosphericDensity := atmosphericDensity t; temperature := temperature t;
     stage1FuelRemaining := stage1FuelRemaining t;
     stage2FuelRemaining := stage2FuelRemaining t; stage1BurnTime := stage1BurnTime t;
     stage2BurnTime := stage2BurnTime t; chamberTemperature := chamberTemperature t;
     fuelFlowRate := fuelFlowRate t; oxidizerFlowRate := oxidizerFlowRate t;
     totalFlowRate := totalFlowRate t; fuelTurbopumpRPM := fuelTurbopumpRPM t;
     oxidizerTurbopumpRPM := v; turbopumpInletPressure := turbopumpInletPressure t;
     nozzleThroatTemp := nozzleThroatTemp t; turbineInletTemp := turbineInletTemp t;
     vibrationLevel := vibrationLevel t; gimbalAngleX := gimbalAngleX t;
     gimbalAngleY := gimbalAngleY t |}.

Definition set_turbopumpInletPressure (v : jsnum) (t : Telemetry) : Telemetry :=
  {| altitude := altitude t; velocity := velocity t; acceleration := acceleration t;
     downrange := downrange t; apogee := apogee t; perigee := perigee t;
     inclination := inclination t; orbitalVelocity := orbitalVelocity t; mass := mass t;
     thrust := thrust t; twr := twr t; maxQ := maxQ t; gForce := gForce t;
     propellantRemaining := propellantRemaining t; engineThrottle := engineThrottle t;
     chamberPressure := chamberPressure t; exhaustVelocity := exhaustVelocity t;
     pitch := pitch t; yaw := yaw t; roll := roll t; flightPathAngle := flightPathAngle t;
     dynamicPressure := dynamicPressure t; machNumber := machNumber t;
     atmosphericDensity := atmosphericDensity t; temperature := temperature t;
     stage1FuelRemaining := stage1FuelRemaining t;
     stage2FuelRemaining := stage2FuelRemaining t; stage1BurnTime := stage1BurnTime t;
     stage2BurnTime := stage2BurnTime t; chamberTemperature := chamberTemperature t;
     fuelFlowRate := fuelFlowRate t; oxidizerFlowRate := oxidizerFlowRate t;
     totalFlowRate := totalFlowRate t; fuelTurbopumpRPM := fuelTurbopumpRPM t;
     oxidizerTurbopumpRPM := oxidizerTurbopumpRPM t; turbopumpInletPressure := v;
     nozzleThroatTemp := nozzleThroatTemp t; turbineInletTemp := turbineInletTemp t;
     vibrationLevel := vibrationLevel t; gimbalAngleX := gimbalAngleX t;
     gimbalAngleY := gimbalAngleY t |}.

Definition set_nozzleThroatTemp (v : jsnum) (t : Telemetry) : Telemetry :=
  {| altitude := altitude t; velocity := velocity t; acceleration := acceleration t;
     downrange := downrange t; apogee := apogee t; perigee := perigee t;
     inclination := inclination t; orbitalVelocity := orbitalVelocity t; mass := mass t;
     thrust := thrust t; twr := twr t; maxQ := maxQ t; gForce := gForce t;
     propellantRemaining := propellantRemaining t; engineThrottle := engineThrottle t;
     chamberPressure := chamberPressure t; exhaustVelocity := exhaustVelocity t;
     pitch := pitch t; yaw := yaw t; roll := roll t; flightPathAngle := flightPathAngle t;
     dynamicPressure := dynamicPressure t; machNumber := machNumber t;
     atmosphericDensity := atmosphericDensity t; temperature := temperature t;
     stage1FuelRemaining := stage1FuelRemaining t;
     stage2FuelRemaining := stage2FuelRemaining t; stage1BurnTime := stage1BurnTime t;
     stage2BurnTime := stage2BurnTime t; chamberTemperature := chamberTemperature t;
     fuelFlowRate := fuelFlowRate t; oxidizerFlowRate := oxidizerFlowRate t;
     totalFlowRate := totalFlowRate t; fuelTurbopumpRPM := fuelTurbopumpRPM t;
     oxidizerTurbopumpRPM := oxidizerTurbopumpRPM t;
     turbopumpInletPressure := turbopumpInletPressure t; nozzleThroatTemp := v;
     turbineInletTemp := turbineInletTemp t; vibrationLevel := vibrationLevel t;
     gimbalAngleX := gimbalAngleX t; gimbalAngleY := gimbalAngleY t |}.

Definition set_turbineInletTemp (v : jsnum) (t : Telemetry) : Telemetry :=
  {| altitude := altitude t; velocity := velocity t; acceleration := acceleration t;
     downrange := downrange t; apogee := apogee t; perigee := perigee t;
     inclination := inclination t; orbitalVelocity := orbitalVelocity t; mass := mass t;
     thrust := thrust t; twr := twr t; maxQ := maxQ t; gForce := gForce t;
     propellantRemaining := propellantRemaining t; engineThrottle := engineThrottle t;
     chamberPressure := chamberPressure t; exhaustVelocity := exhaustVelocity t;
     pitch := pitch t; yaw := yaw t; roll := roll t; flightPathAngle := flightPathAngle t;
     dynamicPressure := dynamicPressure t; machNumber := machNumber t;
     atmosphericDensity := atmosphericDensity t; temperature := temperature t;
     stage1FuelRemaining := stage1FuelRemaining t;
     stage2FuelRemaining := stage2FuelRemaining t; stage1BurnTime := stage1BurnTime t;
     stage2BurnTime := stage2BurnTime t; chamberTemperature := chamberTemperature t;
     fuelFlowRate := fuelFlowRate t; oxidizerFlowRate := oxidizerFlowRate t;
     totalFlowRate := totalFlowRate t; fuelTurbopumpRPM := fuelTurbopumpRPM t;
     oxidizerTurbopumpRPM := oxidizerTurbopumpRPM t;
     turbopumpInletPressure := turbopumpInletPressure t;
     nozzleThroatTemp := nozzleThroatTemp t; turbineInletTemp := v;
     vibrationLevel := vibrationLevel t; gimbalAngleX := gimbalAngleX t;
     gimbalAngleY := gimbalAngleY t |}.

Definition set_vibrationLevel (v : jsnum) (t : Telemetry) : Telemetry :=
  {| altitude := altitude t; velocity := velocity t; acceleration := acceleration t;
     downrange := downrange t; apogee := apogee t; perigee := perigee t;
     inclination := inclination t; orbitalVelocity := orbitalVelocity t; mass := mass t;
     thrust := thrust t; twr := twr t; maxQ := maxQ t; gForce := gForce t;
     propellantRemaining := propellantRemaining t; engineThrottle := engineThrottle t;
     chamberPressure := chamberPressure t; exhaustVelocity := exhaustVelocity t;
     pitch := pitch t; yaw := yaw t; roll := roll t; flightPathAngle := flightPathAngle t;
     dynamicPressure := dynamicPressure t; machNumber := machNumber t;
     atmosphericDensity := atmosphericDensity t; temperature := temperature t;
     stage1FuelRemaining := stage1FuelRemaining t;
     stage2FuelRemaining := stage2FuelRemaining t; stage1BurnTime := stage1BurnTime t;
     stage2BurnTime := stage2BurnTime t; chamberTemperature := chamberTemperature t;
     fuelFlowRate := fuelFlowRate t; oxidizerFlowRate := oxidizerFlowRate t;
     totalFlowRate := totalFlowRate t; fuelTurbopumpRPM := fuelTurbopumpRPM t;
     oxidizerTurbopumpRPM := oxidizerTurbopumpRPM t;
     turbopumpInletPressure := turbopumpInletPressure t;
     nozzleThroatTemp := nozzleThroatTemp t; turbineInletTemp := turbineInletTemp t;
     vibrationLevel := v; gimbalAngleX := gimbalAngleX t; gimbalAngleY := gimbalAngleY t |}.

Definition set_gimbalAngleX (v : jsnum) (t : Telemetry) : Telemetry :=
  {| altitude := altitude t; velocity := velocity t; acceleration := acceleration t;
     downrange := downrange t; apogee := apogee t; perigee := perigee t;
     inclination := inclination t; orbitalVelocity := orbitalVelocity t; mass := mass t;
     thrust := thrust t; twr := twr t; maxQ := maxQ t; gForce := gForce t;
     propellantRemaining := propellantRemaining t; engineThrottle := engineThrottle t;
     chamberPressure := chamberPressure t; exhaustVelocity := exhaustVelocity t;
     pitch := pitch t; yaw := yaw t; roll := roll t; flightPathAngle := flightPathAngle t;
     dynamicPressure := dynamicPressure t; machNumber := machNumber t;
     atmosphericDensity := atmosphericDensity t; temperature := temperature t;
     stage1FuelRemaining := stage1FuelRemaining t;
     stage2FuelRemaining := stage2FuelRemaining t; stage1BurnTime := stage1BurnTime t;
     stage2BurnTime := stage2BurnTime t; chamberTemperature := chamberTemperature t;
     fuelFlowRate := fuelFlowRate t; oxidizerFlowRate := oxidizerFlowRate t;
     totalFlowRate := totalFlowRate t; fuelTurbopumpRPM := fuelTurbopumpRPM t;
     oxidizerTurbopumpRPM := oxidizerTurbopumpRPM t;
     turbopumpInletPressure := turbopumpInletPressure t;
     nozzleThroatTemp := nozzleThroatTemp t; turbineInletTemp := turbineInletTemp t;
     vibrationLevel := vibrationLevel t; gimbalAngleX := v; gimbalAngleY := gimbalAngleY t |}.

Definition set_gimbalAngleY (v : jsnum) (t : Telemetry) : Telemetry :=
  {| altitude := altitude t; velocity := velocity t; acceleration := acceleration t;
     downrange := downrange t; apogee := apogee t; perigee := perigee t;
     inclination := inclination t; orbitalVelocity := orbitalVelocity t; mass := mass t;
     thrust := thrust t; twr := twr t; maxQ := maxQ t; gForce := gForce t;
     propellantRemaining := propellantRemaining t; engineThrottle := engineThrottle t;
     chamberPressure := chamberPressure t; exhaustVelocity := exhaustVelocity t;
     pitch := pitch t; yaw := yaw t; roll := roll t; flightPathAngle := flightPathAngle t;
     dynamicPressure := dynamicPressure t; machNumber := machNumber t;
     atmosphericDensity := atmosphericDensity t; temperature := temperature t;
     stage1FuelRemaining := stage1FuelRemaining t;
     stage2FuelRemaining := stage2FuelRemaining t; stage1BurnTime := stage1BurnTime t;
     stage2BurnTime := stage2BurnTime t; chamberTemperature := chamberTemperature t;
     fuelFlowRate := fuelFlowRate t; oxidizerFlowRate := oxidizerFlowRate t;
     totalFlowRate := totalFlowRate t; fuelTurbopumpRPM := fuelTurbopumpRPM t;
     oxidizerTurbopumpRPM := oxidizerTurbopumpRPM t;
     turbopumpInletPressure := turbopumpInletPressure t;
     nozzleThroatTemp := nozzleThroatTemp t; turbineInletTemp := turbineInletTemp t;
     vibrationLevel := vibrationLevel t; gimbalAngleX := gimbalAngleX t; gimbalAngleY := v |}.

(** ** Anomaly records and the simulator object *)

Inductive Severity : Type := WARNING | CRITICAL.

Record Anomaly : Type := mkAnomaly {
  parameter : string;
  value : R;
  limit : R;
  severity : Severity;
  message : string
}.

Record Sim : Type := mkSim {
  state : FlightState;
  telemetry : Telemetry;
  anomalies : list Anomaly;
  limits : Limits.t;
  pendingIgnition : nat
}.

Definition set_state (v : FlightState) (s : Sim) : Sim :=
  {| state := v; telemetry := telemetry s; anomalies := anomalies s;
     limits := limits s; pendingIgnition := pendingIgnition s |}.

Definition set_telemetry (v : Telemetry) (s : Sim) : Sim :=
  {| state := state s; telemetry := v; anomalies := anomalies s;
     limits := limits s; pendingIgnition := pendingIgnition s |}.

Definition set_pendingIgnition (v : nat) (s : Sim) : Sim :=
  {| state := state s; telemetry := telemetry s; anomalies := anomalies s;
     limits := limits s; pendingIgnition := v |}.

(** [st f s] runs an assignment to [this.state], [tm f s] one to
    [this.telemetry]. *)
Definition st (f : FlightState -> FlightState) (s : Sim) : Sim :=
  set_state (f (state s)) s.

Definition tm (f : Telemetry -> Telemetry) (s : Sim) : Sim :=
  set_telemetry (f (telemetry s)) s.

(** ** The constructor *)

Definition initialState : FlightState :=
  {| phase := PAD; stageNumber := 1; ignitionSequence := false;
     engineStatus := "OFF"; guidanceMode := "GRAVITY_TURN";
     throttleLevel := 100; missionTime := 0; abortFlag := false;
     landingBurnStarted := false; landingLegsDeployed := false |}.

Definition initialTelemetry : Telemetry :=
  {| altitude := 0; velocity := 0; acceleration := 0; downrange := 0;
     apogee := 0; perigee := 0; inclination := 51.6; orbitalVelocity := 0;
     mass := Specs.totalMass specs; thrust := 0; twr := 0; maxQ := 0; gForce := 0;
     propellantRemaining := 100; engineThrottle := 0; chamberPressure := 0;
     exhaustVelocity := 0;
     pitch := 90; yaw := 0; roll := 0; flightPathAngle := 90;
     dynamicPressure := 0; machNumber := 0; atmosphericDensity := 1.225;
     temperature := 288;
     stage1FuelRemaining := 100; stage2FuelRemaining := 100;
     stage1BurnTime := 0; stage2BurnTime := 0;
     chamberTemperature := JUndefined; fuelFlowRate := JUndefined;
     oxidizerFlowRate := JUndefined; totalFlowRate := JUndefined;
     fuelTurbopumpRPM := JUndefined; oxidizerTurbopumpRPM := JUndefined;
     turbopumpInletPressure := JUndefined; nozzleThroatTemp := JUndefined;
     turbineInletTemp := JUndefined; vibrationLevel := JUndefined;
     gimbalAngleX := JUndefined; gimbalAngleY := JUndefined |}.

Definition constructor : Sim :=
  {| state := initialState; telemetry := initialTelemetry; anomalies := [];
     limits := defaultLimits; pendingIgnition := 0 |}.

(** ** Methods of [RocketSimulator]

    A method that returns nothing is a function [Sim -> Sim]; a method that
    returns a value returns it together with the simulator object. *)

Definition phaseIs (s : Sim) (p : Phase) : bool := Phase_eqb (phase (state s)) p.

Definition armIgnition (s : Sim) : Sim :=
  if phaseIs s PAD then st (set_ignitionSequence true) s else s.

Definition startIgnitionSequence (s : Sim) : Sim :=
  if ignitionSequence (state s) then
    let s := st (set_phase IGNITION) s in
    st (set_engineStatus "STARTING") s
  else s.

Definition launch (s : Sim) : Sim :=
  if phaseIs s IGNITION || phaseIs s PAD then
    let s := st (set_phase LAUNCH) s in
    st (set_engineStatus "RUNNING") s
  else s.

Definition simulateIgnition (s : Sim) : Sim :=
  let ignitionProgress := Rmin (missionTime (state s) * 10) 1 in
  let stage := Specs.firstStage specs in
  let s := tm (set_thrust (Stage.thrust stage * ignitionProgress)) s in
  let s := tm (set_engineThrottle (ignitionProgress * 100)) s in
  let s := tm (set_chamberPressure (270 * ignitionProgress)) s in
  if ignitionProgress >=? 1 then st (set_phase LAUNCH) s else s.

Definition calculateThrust (s : Sim) (stage : Stage.t) : R :=
  let atmosphericPressure := 101325 * exp (- altitude (telemetry s) / 8000) in
  let seaLevelPressure := 101325 in
  if (stageNumber (state s) =? 1)%Z then
    let thrustLoss :=
      (atmosphericPressure / seaLevelPressure) * (Stage.thrustVac stage - Stage.thrust stage) in
    Stage.thrust stage + thrustLoss
  else Stage.thrust stage.

Definition calculateDrag (s : Sim) : R :=
  if altitude (telemetry s) >? Constants.atmosphereHeight constants then 0
  else
    let density := atmosphericDensity (telemetry s) in
    let velocity := velocity (telemetry s) in
    let area := Specs.crossSection specs in
    let cd := Specs.dragCoefficient specs in
    0.5 * density * velocity * velocity * cd * area.

Definition updateEnvironment (s : Sim) : Sim :=
  let alt := altitude (telemetry s) in
  if alt <? Constants.atmosphereHeight constants then
    let s := tm (set_atmosphericDensity
                   (Constants.airDensitySeaLevel constants * exp (- alt / 8000))) s in
    let s :=
      if alt <? 11000 then tm (set_temperature (288 - 0.0065 * alt)) s
      else if alt <? 25000 then tm (set_temperature 216.65) s
      else tm (set_temperature (216.65 + 0.0028 * (alt - 25000))) s in
    let speedOfSound := sqrt (1.4 * 287 * temperature (telemetry s)) in
    let s := tm (fun t => set_machNumber (velocity t / speedOfSound) t) s in
    let s := tm (fun t => set_dynamicPressure
                            (0.5 * atmosphericDensity t * velocity t * velocity t) t) s in
    if dynamicPressure (telemetry s) >? maxQ (telemetry s) then
      tm (fun t => set_maxQ (dynamicPressure t) t) s
    else s
  else
    let s := tm (set_atmosphericDensity 0) s in
    let s := tm (set_dynamicPressure 0) s in
    let s := tm (set_machNumber 0) s in
    tm (set_temperature 2.7) s.

Definition getGravity (s : Sim) : R :=
  let r := Constants.Re constants + altitude (telemetry s) in
  Constants.g0 constants * (Constants.Re constants / r) ^ 2.

Definition updateGuidance (s : Sim) : Sim :=
  let s :=
    if (guidanceMode (state s) =? "GRAVITY_TURN")%string then
      if altitude (telemetry s) >? Mission.gravityTurnStart mission then
        let targetPitch := 90 - (altitude (telemetry s) / 100000) * 45 in
        let s := tm (set_pitch (Rmax targetPitch 0)) s in
        tm (fun t => set_flightPathAngle (pitch t) t) s
      else s
    else s in
  if (dynamicPressure (telemetry s) >? 35000) && (stageNumber (state s) =? 1)%Z then
    st (set_throttleLevel 70) s
  else if (dynamicPressure (telemetry s) <? 25000) && (throttleLevel (state s) <? 100) then
    st (set_throttleLevel 100) s
  else s.

Definition simulateAscent (s : Sim) : Sim :=
  let dt := 0.1 in
  let stage :=
    if (stageNumber (state s) =? 1)%Z
    then Specs.firstStage specs else Specs.secondStage specs in
  let thrust := calculateThrust s stage in
  let thrust := thrust * (throttleLevel (state s) / 100) in
  let s := tm (set_thrust thrust) s in
  let fuelBurnRate := thrust / (Stage.specificImpulse stage * Constants.g0 constants) in
  let s := tm (fun t => set_mass (mass t - fuelBurnRate * dt) t) s in
  let s :=
    if (stageNumber (state s) =? 1)%Z then
      let s := tm (fun t => set_stage1BurnTime (stage1BurnTime t + dt) t) s in
      let s := tm (fun t => set_stage1FuelRemaining
                              (Rmax 0 (100 * (1 - stage1BurnTime t / Stage.burnTime stage))) t) s in
      tm (fun t => set_propellantRemaining (stage1FuelRemaining t) t) s
    else
      let s := tm (fun t => set_stage2BurnTime (stage2BurnTime t + dt) t) s in
      let s := tm (fun t => set_stage2FuelRemaining
                              (Rmax 0 (100 * (1 - stage2BurnTime t / Stage.burnTime stage))) t) s in
      tm (fun t => set_propellantRemaining (stage2FuelRemaining t) t) s in
  let weight := mass (telemetry s) * getGravity s in
  let drag := calculateDrag s in
  let netForce := thrust - weight - drag in
  let s := tm (fun t => set_acceleration (netForce / mass t) t) s in
  let s := tm (fun t => set_gForce (acceleration t / Constants.g0 constants) t) s in
  let s := tm (fun t => set_velocity (velocity t + acceleration t * dt) t) s in
  let s := tm (fun t => set_altitude (altitude t + velocity t * dt) t) s in
  let horizontalVel :=
    velocity (telemetry s) * sin (PI * (90 - pitch (telemetry s)) / 180) in
  let s := tm (fun t => set_downrange (downrange t + (horizontalVel * dt) / 1000) t) s in
  let s := updateGuidance s in
  let s := tm (set_exhaustVelocity (Stage.specificImpulse stage * Constants.g0 constants)) s in
  let s := tm (fun t => set_chamberPressure (270 * (engineThrottle t / 100)) t) s in
  tm (set_twr (thrust / weight)) s.

Definition calculateOrbitalParams (s : Sim) : Sim :=
  let alt := altitude (telemetry s) in
  let vel := velocity (telemetry s) in
  let g0 := Constants.g0 constants in
  let Re := Constants.Re constants in
  let r := Re + alt in
  let orbitalVel := sqrt (g0 * Re * Re / r) in
  let s := tm (set_orbitalVelocity orbitalVel) s in
  if vel >? 0 then
    let energy := (vel * vel / 2) - (g0 * Re * Re / r) in
    let a := - g0 * Re * Re / (2 * energy) in
    if a >? 0 then
      let s := tm (set_apogee ((a * 2 - r) / 1000)) s in
      tm (set_perigee (alt / 1000)) s
    else s
  else s.

(** The callback given to [setTimeout] by [separateStage]; it runs when a
    pending timer expires. *)
Definition secondStageIgnition (s : Sim) : Sim :=
  match pendingIgnition s with
  | O => s
  | S n => st (set_phase SECOND_STAGE) (set_pendingIgnition n s)
  end.

Definition separateStage (s : Sim) : Sim :=
  if (stageNumber (state s) =? 1)%Z then
    let s := st (set_phase STAGE_SEP) s in
    let s := st (set_stageNumber 2) s in
    let s := tm (set_mass (Stage.dryMass (Specs.secondStage specs)
                           + Stage.propellantMass (Specs.secondStage specs)
                           + Specs.payload specs)) s in
    set_pendingIgnition (S (pendingIgnition s)) s
  else s.

Definition checkPhaseTransitions (s : Sim) : Sim :=
  let s :=
    if phaseIs s LAUNCH && (altitude (telemetry s) >? 1000)
    then st (set_phase ASCENT) s else s in
  let s :=
    if phaseIs s ASCENT && (stageNumber (state s) =? 1)%Z then
      if (stage1FuelRemaining (telemetry s) <=? 0)
         || (stage1BurnTime (telemetry s) >=? Stage.burnTime (Specs.firstStage specs))
      then
        let s := st (set_phase MECO) s in
        tm (set_thrust 0) s
      else s
    else s in
  let s :=
    if phaseIs s MECO && (missionTime (state s) >? 3)
    then separateStage s else s in
  if phaseIs s SECOND_STAGE then
    if (stage2FuelRemaining (telemetry s) <=? 0)
       || (altitude (telemetry s) >=? Mission.targetAltitude mission)
       || (velocity (telemetry s) >=? Mission.targetVelocity mission)
    then
      let s := st (set_phase ORBIT) s in
      tm (set_thrust 0) s
    else s
  else s.

Definition simulateMECO (s : Sim) : Sim :=
  let dt := 0.1 in
  let weight := mass (telemetry s) * getGravity s in
  let drag := calculateDrag s in
  let s := tm (fun t => set_acceleration (- (weight + drag) / mass t) t) s in
  let s := tm (fun t => set_velocity (velocity t + acceleration t * dt) t) s in
  let s := tm (fun t => set_altitude (altitude t + velocity t * dt) t) s in
  tm (fun t => set_gForce (acceleration t / Constants.g0 constants) t) s.

Definition simulateStageSeparation (s : Sim) : Sim := simulateMECO s.

Definition simulateSecondStage (s : Sim) : Sim := simulateAscent s.

Definition abort (s : Sim) : Sim :=
  let s := st (set_phase ABORT) s in
  let s := st (set_abortFlag true) s in
  tm (set_thrust 0) s.

Definition simulateAbort (s : Sim) : Sim :=
  if (altitude (telemetry s) <=? 0) && (velocity (telemetry s) <=? 0) then
    let s := tm (set_altitude 0) s in
    let s := tm (set_velocity 0) s in
    let s := tm (set_acceleration 0) s in
    let s := tm (set_gForce 0) s in
    let s := tm (set_thrust 0) s in
    let s := tm (set_chamberPressure 0) s in
    let s := tm (set_chamberTemperature (JNum 300)) s in
    let s := tm (set_fuelFlowRate (JNum 0)) s in
    let s := tm (set_oxidizerFlowRate (JNum 0)) s in
    let s := tm (set_totalFlowRate (JNum 0)) s in
    let s := tm (set_fuelTurbopumpRPM (JNum 0)) s in
    let s := tm (set_oxidizerTurbopumpRPM (JNum 0)) s in
    let s := tm (set_turbopumpInletPressure (JNum 0)) s in
    let s := tm (set_nozzleThroatTemp (JNum 300)) s in
    let s := tm (set_turbineInletTemp (JNum 300)) s in
    let s := tm (set_dynamicPressure 0) s in
    let s := tm (set_machNumber 0) s in
    let s := tm (set_vibrationLevel (JNum 0)) s in
    let s := tm (set_exhaustVelocity 0) s in
    let s := st (set_phase ABORTED_STOPPED) s in
    st (set_engineStatus "SHUTDOWN - ABORTED") s
  else
    let s := tm (set_thrust 0) s in
    let s := tm (fun t => set_chamberPressure (Rmax 0 (chamberPressure t * 0.85)) t) s in
    let s := tm (fun t => set_chamberTemperature
                            (jmax 300 (jmul (chamberTemperature t) 0.90)) t) s in
    let s := tm (fun t => set_altitude (Rmax 0 (altitude t * 0.85)) t) s in
    let s := tm (fun t => set_velocity (Rmax 0 (velocity t * 0.75)) t) s in
    let s := tm (fun t => set_downrange (Rmax 0 (downrange t * 0.98)) t) s in
    let s := tm (set_acceleration (- 9.81)) s in
    let s := tm (set_gForce (- 1)) s in
    let s := tm (fun t => set_fuelFlowRate (jmax 0 (jmul (fuelFlowRate t) 0.70)) t) s in
    let s := tm (fun t => set_oxidizerFlowRate
                            (jmax 0 (jmul (oxidizerFlowRate t) 0.70)) t) s in
    let s := tm (fun t => set_totalFlowRate
                            (jadd (fuelFlowRate t) (oxidizerFlowRate t)) t) s in
    let s := tm (fun t => set_propellantRemaining
                            (Rmax 0 (propellantRemaining t * 0.95)) t) s in
    let s := tm (fun t => set_fuelTurbopumpRPM
                            (jmax 0 (jmul (fuelTurbopumpRPM t) 0.75)) t) s in
    let s := tm (fun t => set_oxidizerTurbopumpRPM
                            (jmax 0 (jmul (oxidizerTurbopumpRPM t) 0.75)) t) s in
    let s := tm (fun t => set_turbopumpInletPressure
                            (jmax 0 (jmul (turbopumpInletPressure t) 0.80)) t) s in
    let s := tm (fun t => set_nozzleThroatTemp
                            (jmax 300 (jmul (nozzleThroatTemp t) 0.88)) t) s in
    let s := tm (fun t => set_turbineInletTemp
                            (jmax 300 (jmul (turbineInletTemp t) 0.88)) t) s in
    let s := tm (set_dynamicPressure 0) s in
    let s := tm (set_machNumber 0) s in
    let s := tm (fun t => set_vibrationLevel (jmax 0 (jmul (vibrationLevel t) 0.70)) t) s in
    let s := tm (fun t => set_exhaustVelocity (Rmax 0 (exhaustVelocity t * 0.80)) t) s in
    let s := tm (fun t => set_mass (Rmax (Specs.totalMass specs * 0.3) (mass t * 0.995)) t) s in
    let s :=
      if altitude (telemetry s) <? 100
      then tm (fun t => set_altitude (Rmax 0 (altitude t * 0.5)) t) s else s in
    if altitude (telemetry s) <? 1 then
      let s := tm (set_altitude 0) s in
      let s := tm (set_velocity 0) s in
      let s := tm (set_acceleration 0) s in
      let s := tm (set_gForce 0) s in
      let s := tm (set_fuelTurbopumpRPM (JNum 0)) s in
      let s := tm (set_oxidizerTurbopumpRPM (JNum 0)) s in
      let s := tm (set_fuelFlowRate (JNum 0)) s in
      let s := tm (set_oxidizerFlowRate (JNum 0)) s in
      let s := tm (set_totalFlowRate (JNum 0)) s in
      let s := st (set_phase ABORTED_STOPPED) s in
      st (set_engineStatus "SHUTDOWN - ABORTED") s
    else s.

Definition initiateLanding (s : Sim) : Sim :=
  let s := st (set_phase LANDING) s in
  st (set_landingBurnStarted false) s.

(** Band 1: re-entry and boostback, above 50 km. *)
Definition landingReentry (s : Sim) : Sim :=
  let dt := 0.1 in
  let s := tm (fun t => set_velocity (Rmax (- 1200) (velocity t - 30)) t) s in
  let s := tm (fun t => set_altitude (altitude t + velocity t * dt) t) s in
  let s := tm (set_thrust 1800000) s in
  let s := tm (set_engineThrottle 30) s in
  let s := st (set_engineStatus "RE-ENTRY BURN (3 ENGINES)") s in
  let s := tm (fun t => set_machNumber (Rabs (velocity t) / 343) t) s in
  tm (fun t => set_dynamicPressure (0.5 * 0.01 * velocity t * velocity t) t) s.

(** Band 2: aerodynamic descent, 50 km to 7 km. *)
Definition landingAerodynamic (s : Sim) : Sim :=
  let dt := 0.1 in
  let s := tm (fun t => set_velocity (Rmax (- 350) (velocity t - 15)) t) s in
  let s := tm (fun t => set_altitude (altitude t + velocity t * dt) t) s in
  let s := tm (set_thrust 0) s in
  let s := tm (set_engineThrottle 0) s in
  let s := st (set_engineStatus "GRID FIN CONTROL") s in
  let s := tm (set_pitch (88 + sin (missionTime (state s) * 0.5) * 2)) s in
  let s := tm (set_gimbalAngleX (JNum (sin (missionTime (state s) * 1.5) * 3))) s in
  tm (set_gimbalAngleY (JNum (cos (missionTime (state s) * 1.5) * 3))) s.

(** Band 3: entry burn, 7 km to 2 km. *)
Definition landingEntryBurn (s : Sim) : Sim :=
  let dt := 0.1 in
  let s := tm (fun t => set_velocity (Rmax (- 250) (velocity t + 10)) t) s in
  let s := tm (fun t => set_altitude (altitude t + velocity t * dt) t) s in
  let s := tm (set_thrust 2200000) s in
  let s := tm (set_engineThrottle 70) s in
  st (set_engineStatus "ENTRY BURN (3 ENGINES)") s.

(** Band 4: coast before the landing burn, 2 km to 500 m. *)
Definition landingCoast (s : Sim) : Sim :=
  let dt := 0.1 in
  let s := tm (fun t => set_velocity (Rmax (- 120) (velocity t - 8)) t) s in
  let s := tm (fun t => set_altitude (altitude t + velocity t * dt) t) s in
  let s := tm (set_thrust 0) s in
  let s := tm (set_engineThrottle 0) s in
  let s := st (set_engineStatus "PREPARING LANDING BURN") s in
  if altitude (telemetry s) <=? 600 then st (set_landingBurnStarted true) s else s.

(** Band 5: single-engine landing burn, down to 20 m. *)
Definition landingBurn (s : Sim) : Sim :=
  let dt := 0.1 in
  let timeToImpact := Rabs (altitude (telemetry s) / velocity (telemetry s)) in
  let requiredDeceleration := Rabs (velocity (telemetry s)) / timeToImpact in
  let requiredThrust := mass (telemetry s) * (requiredDeceleration + 9.81) in
  let maxSingleEngineThrust := 850000 in
  let minThrust := maxSingleEngineThrust * 0.4 in
  let s := tm (set_thrust (Rmin maxSingleEngineThrust (Rmax minThrust requiredThrust))) s in
  let s := tm (fun t => set_engineThrottle ((thrust t / maxSingleEngineThrust) * 100) t) s in
  let s := st (set_engineStatus "LANDING BURN (1 ENGINE)") s in
  let acceleration := (thrust (telemetry s) / mass (telemetry s)) - 9.81 in
  let s := tm (fun t => set_velocity (velocity t + acceleration * dt) t) s in
  let s := tm (fun t => set_altitude (altitude t + velocity t * dt) t) s in
  let s := tm (fun t => set_chamberPressure (100 + 150 * (engineThrottle t / 100)) t) s in
  let s := tm (fun t => set_chamberTemperature
                          (JNum (2500 + 800 * (engineThrottle t / 100))) t) s in
  let s := tm (fun t => set_fuelFlowRate (JNum (250 * (engineThrottle t / 100))) t) s in
  let s := tm (fun t => set_oxidizerFlowRate (JNum (650 * (engineThrottle t / 100))) t) s in
  if (altitude (telemetry s) <? 40) && negb (landingLegsDeployed (state s))
  then st (set_landingLegsDeployed true) s else s.

(** Band 6: final touchdown, 20 m to the ground. *)
Definition landingTouchdown (s : Sim) : Sim :=
  let dt := 0.1 in
  let targetVelocity := - sqrt (altitude (telemetry s) * 0.8) in
  let s := tm (set_velocity (Rmax (- 5) targetVelocity)) s in
  let s := tm (fun t => set_altitude (Rmax 0 (altitude t + velocity t * dt)) t) s in
  let hoverThrust := mass (telemetry s) * 9.81 in
  let velocityCorrection :=
    (targetVelocity - velocity (telemetry s)) * mass (telemetry s) * 10 in
  let s := tm (set_thrust (Rmax 400000 (Rmin 850000 (hoverThrust + velocityCorrection)))) s in
  let s := tm (fun t => set_engineThrottle ((thrust t / 850000) * 100) t) s in
  st (set_engineStatus "TOUCHDOWN BURN") s.

(** Band 7: landed. *)
Definition landingLanded (s : Sim) : Sim :=
  let s := st (set_phase LANDED) s in
  let s := tm (set_altitude 0) s in
  let s := tm (set_velocity 0) s in
  let s := tm (set_thrust 0) s in
  let s := tm (set_engineThrottle 0) s in
  let s := tm (set_chamberPressure 0) s in
  let s := tm (set_chamberTemperature (JNum 300)) s in
  let s := tm (set_fuelFlowRate (JNum 0)) s in
  let s := tm (set_oxidizerFlowRate (JNum 0)) s in
  let s := tm (set_totalFlowRate (JNum 0)) s in
  let s := tm (set_acceleration 0) s in
  let s := tm (set_gForce 0) s in
  let s := tm (set_fuelTurbopumpRPM (JNum 0)) s in
  let s := tm (set_oxidizerTurbopumpRPM (JNum 0)) s in
  let s := tm (set_turbopumpInletPressure (JNum 0)) s in
  let s := tm (set_nozzleThroatTemp (JNum 300)) s in
  let s := tm (set_turbineInletTemp (JNum 300)) s in
  let s := tm (set_dynamicPressure 0) s in
  let s := tm (set_machNumber 0) s in
  let s := tm (set_vibrationLevel (JNum 0)) s in
  let s := tm (set_exhaustVelocity 0) s in
  st (set_engineStatus "SHUTDOWN - LANDED") s.

Definition simulateLanding (s : Sim) : Sim :=
  if phaseIs s LANDED then
    let s := tm (set_altitude 0) s in
    let s := tm (set_velocity 0) s in
    let s := tm (set_thrust 0) s in
    let s := tm (set_engineThrottle 0) s in
    let s := tm (set_chamberPressure 0) s in
    let s := tm (set_fuelFlowRate (JNum 0)) s in
    let s := tm (set_oxidizerFlowRate (JNum 0)) s in
    let s := tm (set_acceleration 0) s in
    let s := tm (set_gForce 0) s in
    let s := tm (set_totalFlowRate (JNum 0)) s in
    let s := tm (set_fuelTurbopumpRPM (JNum 0)) s in
    let s := tm (set_oxidizerTurbopumpRPM (JNum 0)) s in
    st (set_engineStatus "SHUTDOWN - LANDED") s
  else
    let s :=
      if altitude (telemetry s) >? 50000 then landingReentry s
      else if altitude (telemetry s) >? 7000 then landingAerodynamic s
      else if altitude (telemetry s) >? 2000 then landingEntryBurn s
      else if (altitude (telemetry s) >? 500) && negb (landingBurnStarted (state s))
      then landingCoast s
      else if landingBurnStarted (state s) && (altitude (telemetry s) >? 20)
      then landingBurn s
      else if (altitude (telemetry s) <=? 20) && (altitude (telemetry s) >? 0)
      then landingTouchdown s
      else landingLanded s in
    let s := tm (fun t => set_acceleration (thrust t / mass t - 9.81) t) s in
    let s := tm (fun t => set_gForce (acceleration t / 9.81) t) s in
    let s := tm (fun t => set_totalFlowRate (jadd (fuelFlowRate t) (oxidizerFlowRate t)) t) s in
    let s := tm (fun t => set_fuelTurbopumpRPM (JNum (20000 * (engineThrottle t / 100))) t) s in
    tm (fun t => set_oxidizerTurbopumpRPM (JNum (22000 * (engineThrottle t / 100))) t) s.

Definition setThrottle (level : R) (s : Sim) : Sim :=
  st (set_throttleLevel (Rmax 0 (Rmin 100 level))) s.

Definition checkAnomalies (s : Sim) : list Anomaly * Sim :=
  let anomalies : list Anomaly := [] in
  let anomalies :=
    if dynamicPressure (telemetry s) >? Limits.maxQ (limits s) then
      anomalies ++ [ {| parameter := "dynamicPressure";
                        value := dynamicPressure (telemetry s);
                        limit := Limits.maxQ (limits s);
                        severity := WARNING;
                        message := "Approaching max-Q limits" |} ]
    else anomalies in
  let anomalies :=
    if Rabs (gForce (telemetry s)) >? Limits.maxG (limits s) then
      anomalies ++ [ {| parameter := "gForce";
                        value := gForce (telemetry s);
                        limit := Limits.maxG (limits s);
                        severity := CRITICAL;
                        message := "Excessive G-forces detected" |} ]
    else anomalies in
  let anomalies :=
    if thrust (telemetry s) >? Limits.maxThrust (limits s) then
      anomalies ++ [ {| parameter := "thrust";
                        value := thrust (telemetry s);
                        limit := Limits.maxThrust (limits s);
                        severity := CRITICAL;
                        message := "Engine over-thrust condition" |} ]
    else anomalies in
  (anomalies, s).

Definition getState (s : Sim) : FlightState * Sim := (state s, s).

Definition getTelemetry (s : Sim) : Telemetry * Sim := (telemetry s, s).

(** The [switch] of [updateSimulation]. *)
Definition dispatch (s : Sim) : Sim :=
  match phase (state s) with
  | IGNITION => simulateIgnition s
  | LAUNCH | ASCENT => simulateAscent s
  | MECO => simulateMECO s
  | STAGE_SEP => simulateStageSeparation s
  | SECOND_STAGE => simulateSecondStage s
  | ABORT => simulateAbort s
  | LANDING => simulateLanding s
  | _ => s
  end.

(** The mission-time statement of [updateSimulation]. *)
Definition advanceMissionTime (s : Sim) : Sim :=
  if negb (phaseIs s ABORT) && negb (phaseIs s LANDING)
  then st (fun x => set_missionTime (missionTime x + 0.1) x) s
  else s.

(** The returned telemetry is the simulator's own telemetry object. *)
Definition updateSimulation (s : Sim) : Telemetry * Sim :=
  if phaseIs s PAD || phaseIs s ORBIT || phaseIs s LANDED then (telemetry s, s)
  else
    let s := advanceMissionTime s in
    let s := dispatch s in
    let s := updateEnvironment s in
    let s := calculateOrbitalParams s in
    let s := checkPhaseTransitions s in
    (telemetry s, s).

(** One tick: the simulator object after [updateSimulation]. *)
Definition tick (s : Sim) : Sim := snd (updateSimulation s).

(** ** Runs

    A run is the constructor followed by a sequence of method calls and
    timer expiries. *)

Inductive Call : Type :=
| CallArmIgnition
| CallStartIgnitionSequence
| CallLaunch
| CallUpdateSimulation
| CallAbort
| CallInitiateLanding
| CallSetThrottle (level : R)
| CallSeparateStage
| CallCheckAnomalies
| CallGetState
| CallGetTelemetry
| TimerExpires.

Definition exec (c : Call) (s : Sim) : Sim :=
  match c with
  | CallArmIgnition => armIgnition s
  | CallStartIgnitionSequence => startIgnitionSequence s
  | CallLaunch => launch s
  | CallUpdateSimulation => tick s
  | CallAbort => abort s
  | CallInitiateLanding => initiateLanding s
  | CallSetThrottle level => setThrottle level s
  | CallSeparateStage => separateStage s
  | CallCheckAnomalies => snd (checkAnomalies s)
  | CallGetState => snd (getState s)
  | CallGetTelemetry => snd (getTelemetry s)
  | TimerExpires => secondStageIgnition s
  end.

Fixpoint runFrom (s : Sim) (calls : list Call) : Sim :=
  match calls with
  | [] => s
  | c :: calls => runFrom (exec c s) calls
  end.

Definition run (calls : list Call) : Sim := runFrom constructor calls.


(** * Definitions used by the statements *)


(** The stage whose engine burns, and its burn-time accumulator. *)
Definition activeStage (s : Sim) : Stage.t :=
  if (stageNumber (state s) =? 1)%Z
  then Specs.firstStage specs else Specs.secondStage specs.

Definition activeBurnTime (n : Z) (t : Telemetry) : R :=
  if (n =? 1)%Z then stage1BurnTime t else stage2BurnTime t.


(** The throttle rule of [updateGuidance], as a function of the dynamic
    pressure and the flight state it reads. *)
Definition guidanceThrottle (q : R) (x : FlightState) : FlightState :=
  if (q >? 35000) && (stageNumber x =? 1)%Z then set_throttleLevel 70 x
  else if (q <? 25000) && (throttleLevel x <? 100) then set_throttleLevel 100 x
  else x.

(** Powered flight: the phases whose tick runs [simulateAscent]. *)
Definition powered (s : Sim) : Prop :=
  phase (state s) = LAUNCH \/ phase (state s) = ASCENT
  \/ phase (state s) = SECOND_STAGE.

(** The fields that no transition writes. *)
Definition transitionFrame (s s' : Sim) : Prop :=
  throttleLevel (state s') = throttleLevel (state s)
  /\ missionTime (state s') = missionTime (state s)
  /\ propellantRemaining (telemetry s') = propellantRemaining (telemetry s)
  /\ stage1BurnTime (telemetry s') = stage1BurnTime (telemetry s)
  /\ stage2BurnTime (telemetry s') = stage2BurnTime (telemetry s)
  /\ dynamicPressure (telemetry s') = dynamicPressure (telemetry s)
  /\ maxQ (telemetry s') = maxQ (telemetry s)
  /\ altitude (telemetry s') = altitude (telemetry s)
  /\ velocity (telemetry s') = velocity (telemetry s).


(** ** States used by the examples *)

(** On the pad, aborted: [abort()] on a fresh simulator, then one tick. *)
Definition abortedOnPad : Sim := tick (abort constructor).

(** The simulator before the last tick of the first-stage burn of a flight
    started by [launch()]: in [ASCENT], with the burn-time accumulator and
    the mission clock both at 161.95 s, short of the rated 162 s. *)
Definition endOfFirstStageBurn : Sim :=
  let s := launch constructor in
  let s := st (set_phase ASCENT) s in
  let s := st (set_missionTime 161.95) s in
  let s := tm (set_stage1BurnTime 161.95) s in
  let s := tm (set_stage1FuelRemaining (100 * (1 - 161.95 / 162))) s in
  let s := tm (fun t => set_propellantRemaining (stage1FuelRemaining t) t) s in
  let s := tm (set_mass 95000) s in
  let s := tm (set_altitude 68000) s in
  let s := tm (set_velocity 2300) s in
  tm (set_pitch 59.4) s.

(** The second stage in powered flight with the vehicle's mass at the second
    stage's dry mass plus the payload. *)
Definition secondStageAtDryMass : Sim :=
  let s := launch constructor in
  let s := st (set_phase SECOND_STAGE) s in
  let s := st (set_stageNumber 2) s in
  let s := st (set_missionTime 500) s in
  let s := tm (set_stage1BurnTime 162) s in
  let s := tm (set_stage1FuelRemaining 0) s in
  let s := tm (set_stage2BurnTime 300) s in
  let s := tm (set_mass (Stage.dryMass (Specs.secondStage specs) + Specs.payload specs)) s in
  let s := tm (set_altitude 200000) s in
  let s := tm (set_velocity 5000) s in
  tm (set_pitch 0) s.

(** A returning first stage at 60 km, after [initiateLanding()]. *)
Definition reentryAt60km : Sim :=
  let s := tm (set_altitude 60000) endOfFirstStageBurn in
  let s := tm (set_velocity (- 900)) s in
  initiateLanding s.

(** ** Observations along a run *)

(** Whether [updateSimulation] gets past its first test, and the simulator
    right after the call of [updateEnvironment] in that case. *)
Definition environmentRuns (s : Sim) : bool :=
  negb (phaseIs s PAD || phaseIs s ORBIT || phaseIs s LANDED).

Definition afterEnvironment (s : Sim) : Sim :=
  updateEnvironment (dispatch (advanceMissionTime s)).

(** The dynamic pressures at the end of the environment update of the ticks
    of a run, oldest first. *)
Fixpoint observedPressures (s : Sim) (calls : list Call) : list R :=
  match calls with
  | [] => []
  | c :: calls =>
      match c with
      | CallUpdateSimulation =>
          if environmentRuns s
          then dynamicPressure (telemetry (afterEnvironment s))
               :: observedPressures (exec c s) calls
          else observedPressures (exec c s) calls
      | _ => observedPressures (exec c s) calls
      end
  end.

(** The largest element of a list of pressures, [0] for the empty list. *)
Definition maxPressure (l : list R) : R := fold_right Rmax 0 l.

(** The invariant behind the bounds of [propellantRemaining]: the burn-time
    accumulators never go below zero. *)
Definition propellantInvariant (s : Sim) : Prop :=
  0 <= propellantRemaining (telemetry s) <= 100
  /\ 0 <= stage1BurnTime (telemetry s)
  /\ 0 <= stage2BurnTime (telemetry s).

(** ** The landing sequencer, band by band *)

(** The seven altitude bands of [simulateLanding], numbered as the source's
    comments number them, and the band that its conditional chain selects. *)
Inductive Band : Type :=
| Band1 | Band2 | Band3 | Band4 | Band5 | Band6 | Band7.

Definition landingBand (altitude : R) (landingBurnStarted : bool) : Band :=
  if altitude >? 50000 then Band1
  else if altitude >? 7000 then Band2
  else if altitude >? 2000 then Band3
  else if (altitude >? 500) && negb landingBurnStarted then Band4
  else if landingBurnStarted && (altitude >? 20) then Band5
  else if (altitude <=? 20) && (altitude >? 0) then Band6
  else Band7.

Definition bandOf (s : Sim) : Band :=
  landingBand (altitude (telemetry s)) (landingBurnStarted (state s)).

Definition runBand (b : Band) (s : Sim) : Sim :=
  match b with
  | Band1 => landingReentry s
  | Band2 => landingAerodynamic s
  | Band3 => landingEntryBurn s
  | Band4 => landingCoast s
  | Band5 => landingBurn s
  | Band6 => landingTouchdown s
  | Band7 => landingLanded s
  end.

(** The statements of [simulateLanding] after the chain. *)
Definition landingEpilogue (s : Sim) : Sim :=
  let s := tm (fun t => set_acceleration (thrust t / mass t - 9.81) t) s in
  let s := tm (fun t => set_gForce (acceleration t / 9.81) t) s in
  let s := tm (fun t => set_totalFlowRate (jadd (fuelFlowRate t) (oxidizerFlowRate t)) t) s in
  let s := tm (fun t => set_fuelTurbopumpRPM (JNum (20000 * (engineThrottle t / 100))) t) s in
  tm (fun t => set_oxidizerTurbopumpRPM (JNum (22000 * (engineThrottle t / 100))) t) s.

(** ** The anomaly records *)

Definition pressureAnomaly (s : Sim) : Anomaly :=
  {| parameter := "dynamicPressure";
     value := dynamicPressure (telemetry s);
     limit := Limits.maxQ (limits s);
     severity := WARNING;
     message := "Approaching max-Q limits" |}.

Definition gForceAnomaly (s : Sim) : Anomaly :=
  {| parameter := "gForce";
     value := gForce (telemetry s);
     limit := Limits.maxG (limits s);
     severity := CRITICAL;
     message := "Excessive G-forces detected" |}.

Definition thrustAnomaly (s : Sim) : Anomaly :=
  {| parameter := "thrust";
     value := thrust (telemetry s);
     limit := Limits.maxThrust (limits s);
     severity := CRITICAL;
     message := "Engine over-thrust condition" |}.

(** ** Invariants of a run and the phase graph *)

(** The throttle level is a percentage, and the mission clock and the
    thrust are never negative. *)
Definition controlInvariant (s : Sim) : Prop :=
  0 <= throttleLevel (state s) <= 100
  /\ 0 <= missionTime (state s)
  /\ 0 <= thrust (telemetry s).

(** The first stage is attached and no ignition timer is pending, or the
    second stage is active with at most one timer pending. *)
Definition stageInvariant (s : Sim) : Prop :=
  (stageNumber (state s) = 1%Z /\ pendingIgnition s = O)
  \/ (stageNumber (state s) = 2%Z /\ (pendingIgnition s <= 1)%nat).

(** The pitch stays between horizontal and vertical, and the atmosphere
    fields are never negative. *)
Definition attitudeInvariant (s : Sim) : Prop :=
  0 <= pitch (telemetry s) <= 90
  /\ 0 <= dynamicPressure (telemetry s)
  /\ 0 <= atmosphericDensity (telemetry s).

(** [tickAllowed p q]: a tick that starts in phase [p] may end in phase
    [q]. *)
Definition tickAllowed (p q : Phase) : bool :=
  match p, q with
  | PAD, PAD | ORBIT, ORBIT | LANDED, LANDED
  | ABORTED_STOPPED, ABORTED_STOPPED | STAGE_SEP, STAGE_SEP => true
  | IGNITION, (IGNITION | LAUNCH | ASCENT | MECO | STAGE_SEP) => true
  | LAUNCH, (LAUNCH | ASCENT | MECO | STAGE_SEP) => true
  | ASCENT, (ASCENT | MECO | STAGE_SEP) => true
  | MECO, (MECO | STAGE_SEP) => true
  | SECOND_STAGE, (SECOND_STAGE | ORBIT) => true
  | ABORT, (ABORT | ABORTED_STOPPED) => true
  | LANDING, (LANDING | LANDED) => true
  | _, _ => false
  end.

(** The phases in which [updateSimulation] leaves the mission clock alone. *)
Definition clockFrozen (p : Phase) : bool :=
  match p with
  | PAD | ORBIT | LANDED | ABORT | LANDING => true
  | _ => false
  end.

(** * Properties *)

(** ** Comparisons *)

Lemma Rgtb_spec (a b : R) : reflect (a > b) (a >? b).
Proof. unfold Rgtb. destruct (Rgt_dec a b); constructor; assumption. Qed.

Lemma Rltb_spec (a b : R) : reflect (a < b) (a <? b).
Proof. unfold Rltb. destruct (Rlt_dec a b); constructor; assumption. Qed.

Lemma Rgeb_spec (a b : R) : reflect (a >= b) (a >=? b).
Proof. unfold Rgeb. destruct (Rge_dec a b); constructor; assumption. Qed.

Lemma Rleb_spec (a b : R) : reflect (a <= b) (a <=? b).
Proof. unfold Rleb. destruct (Rle_dec a b); constructor; assumption. Qed.

(** [case_cmp] splits on a comparison of reals in the goal whose operands
    contain no conditional, so that inner tests are settled first. *)
Ltac no_if t :=
  lazymatch t with
  | context [ if _ then _ else _ ] => fail
  | _ => idtac
  end.

Ltac case_cmp :=
  match goal with
  | |- context [ ?a >? ?b ] => no_if a; no_if b; destruct (Rgtb_spec a b)
  | |- context [ ?a <? ?b ] => no_if a; no_if b; destruct (Rltb_spec a b)
  | |- context [ ?a >=? ?b ] => no_if a; no_if b; destruct (Rgeb_spec a b)
  | |- context [ ?a <=? ?b ] => no_if a; no_if b; destruct (Rleb_spec a b)
  end.

(** [case_if] splits on the leftmost atomic test of a condition of the
    goal; a test of the phase is left to rewriting with the known phase. *)
Ltac case_atom c :=
  lazymatch c with
  | ?a && _ => case_atom a
  | ?a || _ => case_atom a
  | negb ?a => case_atom a
  | true => fail
  | false => fail
  | Phase_eqb _ _ => fail
  | _ => no_if c; destruct c eqn:?
  end.

Ltac case_if :=
  match goal with
  | |- context [ if ?c then _ else _ ] => case_atom c
  end.

Ltac frame f := unfold f; repeat (case_if; cbn); reflexivity.

(** ** Frame lemmas: what each step leaves alone *)

Lemma updateEnvironment_state (s : Sim) : state (updateEnvironment s) = state s.
Proof. unfold updateEnvironment. repeat case_if; reflexivity. Qed.

Lemma calculateOrbitalParams_state (s : Sim) :
  state (calculateOrbitalParams s) = state s.
Proof. unfold calculateOrbitalParams. repeat case_if; reflexivity. Qed.

Lemma updateEnvironment_altitude (s : Sim) :
  altitude (telemetry (updateEnvironment s)) = altitude (telemetry s).
Proof. frame updateEnvironment. Qed.

Lemma updateEnvironment_velocity (s : Sim) :
  velocity (telemetry (updateEnvironment s)) = velocity (telemetry s).
Proof. frame updateEnvironment. Qed.

Lemma updateEnvironment_thrust (s : Sim) :
  thrust (telemetry (updateEnvironment s)) = thrust (telemetry s).
Proof. frame updateEnvironment. Qed.

Lemma calculateOrbitalParams_altitude (s : Sim) :
  altitude (telemetry (calculateOrbitalParams s)) = altitude (telemetry s).
Proof. frame calculateOrbitalParams. Qed.

Lemma calculateOrbitalParams_velocity (s : Sim) :
  velocity (telemetry (calculateOrbitalParams s)) = velocity (telemetry s).
Proof. frame calculateOrbitalParams. Qed.

Lemma calculateOrbitalParams_thrust (s : Sim) :
  thrust (telemetry (calculateOrbitalParams s)) = thrust (telemetry s).
Proof. frame calculateOrbitalParams. Qed.

Lemma checkPhaseTransitions_idle (s : Sim) :
  phase (state s) <> LAUNCH -> phase (state s) <> ASCENT ->
  phase (state s) <> MECO -> phase (state s) <> SECOND_STAGE ->
  checkPhaseTransitions s = s.
Proof.
  intros H1 H2 H3 H4. unfold checkPhaseTransitions, phaseIs.
  destruct (phase (state s)) eqn:E; try congruence;
    repeat (cbn; rewrite E); reflexivity.
Qed.

(** ** The tick in the terminal phases *)

Lemma updateSimulation_noop (s : Sim) :
  phase (state s) = PAD \/ phase (state s) = ORBIT \/ phase (state s) = LANDED ->
  updateSimulation s = (telemetry s, s).
Proof.
  intros H. unfold updateSimulation, phaseIs.
  destruct H as [H | [H | H]]; rewrite H; reflexivity.
Qed.

Lemma tick_aborted_stopped_state (s : Sim) :
  phase (state s) = ABORTED_STOPPED ->
  state (tick s) = set_missionTime (missionTime (state s) + 0.1) (state s).
Proof.
  intros H. unfold tick, updateSimulation, phaseIs. rewrite H. cbn.
  unfold advanceMissionTime, phaseIs. rewrite H. cbn.
  unfold dispatch. cbn. rewrite H.
  rewrite checkPhaseTransitions_idle;
    rewrite ?calculateOrbitalParams_state, ?updateEnvironment_state; cbn;
    try (rewrite H; discriminate).
  reflexivity.
Qed.

(** ** The abort sequencer *)



Lemma simulateAbort_thrust (s : Sim) : thrust (telemetry (simulateAbort s)) = 0.
Proof. frame simulateAbort. Qed.

(** One step of the sequencer either stops the vehicle at rest or leaves the
    flight state alone with the altitude cut by at least 15% and still at
    least one metre. *)
Lemma simulateAbort_cases (s : Sim) :
  (phase (state (simulateAbort s)) = ABORTED_STOPPED
   /\ altitude (telemetry (simulateAbort s)) = 0
   /\ velocity (telemetry (simulateAbort s)) = 0)
  \/ (state (simulateAbort s) = state s
      /\ 1 <= altitude (telemetry (simulateAbort s)) <= altitude (telemetry s) * 0.85).
Proof.
  unfold simulateAbort.
  repeat (case_cmp; cbn);
    first [ left; repeat split; reflexivity
          | right; split; [reflexivity |];
            unfold Rmax in *; repeat (destruct (Rle_dec _ _)); lra ].
Qed.

Lemma tick_in_abort (s : Sim) :
  phase (state s) = ABORT ->
  tick s = checkPhaseTransitions
             (calculateOrbitalParams (updateEnvironment (simulateAbort s))).
Proof.
  intros H. unfold tick, updateSimulation, advanceMissionTime, dispatch, phaseIs.
  rewrite H. cbn. rewrite H. reflexivity.
Qed.

Lemma tick_abort_step (s : Sim) :
  phase (state s) = ABORT ->
  thrust (telemetry (tick s)) = 0
  /\ ((phase (state (tick s)) = ABORTED_STOPPED
       /\ altitude (telemetry (tick s)) = 0
       /\ velocity (telemetry (tick s)) = 0)
      \/ (phase (state (tick s)) = ABORT
          /\ 1 <= altitude (telemetry (tick s)) <= altitude (telemetry s) * 0.85)).
Proof.
  intros H. rewrite (tick_in_abort s H).
  assert (Hst : state (calculateOrbitalParams (updateEnvironment (simulateAbort s)))
                = state (simulateAbort s))
    by (rewrite calculateOrbitalParams_state, updateEnvironment_state; reflexivity).
  assert (Hidle : checkPhaseTransitions
                    (calculateOrbitalParams (updateEnvironment (simulateAbort s)))
                  = calculateOrbitalParams (updateEnvironment (simulateAbort s))).
  { apply checkPhaseTransitions_idle; rewrite Hst;
      destruct (simulateAbort_cases s) as [[E _] | [E _]]; rewrite E, ?H; discriminate. }
  rewrite Hidle, Hst.
  rewrite calculateOrbitalParams_thrust, updateEnvironment_thrust.
  rewrite calculateOrbitalParams_altitude, updateEnvironment_altitude.
  rewrite calculateOrbitalParams_velocity, updateEnvironment_velocity.
  split; [apply simulateAbort_thrust |].
  destruct (simulateAbort_cases s) as [C | [E C]]; [left; exact C | right].
  rewrite E. auto.
Qed.


(** The callback scheduled by [separateStage] is not cancelled by [abort]:
    when a pending timer expires during the abort, the phase leaves [ABORT].
    The statements below are about consecutive ticks, with no timer expiry
    in between. *)
Remark pending_ignition_leaves_abort (s : Sim) :
  pendingIgnition s <> O ->
  phase (state (secondStageIgnition (abort s))) = SECOND_STAGE.
Proof.
  intros H. unfold secondStageIgnition.
  change (pendingIgnition (abort s)) with (pendingIgnition s).
  destruct (pendingIgnition s); [congruence | reflexivity].
Qed.


Lemma updateEnvironment_mass (s : Sim) :
  mass (telemetry (updateEnvironment s)) = mass (telemetry s).
Proof. frame updateEnvironment. Qed.

Lemma updateEnvironment_propellantRemaining (s : Sim) :
  propellantRemaining (telemetry (updateEnvironment s))
  = propellantRemaining (telemetry s).
Proof. frame updateEnvironment. Qed.

Lemma updateEnvironment_stage1BurnTime (s : Sim) :
  stage1BurnTime (telemetry (updateEnvironment s)) = stage1BurnTime (telemetry s).
Proof. frame updateEnvironment. Qed.

Lemma updateEnvironment_stage2BurnTime (s : Sim) :
  stage2BurnTime (telemetry (updateEnvironment s)) = stage2BurnTime (telemetry s).
Proof. frame updateEnvironment. Qed.

Lemma updateEnvironment_stage1FuelRemaining (s : Sim) :
  stage1FuelRemaining (telemetry (updateEnvironment s))
  = stage1FuelRemaining (telemetry s).
Proof. frame updateEnvironment. Qed.

Lemma updateEnvironment_stage2FuelRemaining (s : Sim) :
  stage2FuelRemaining (telemetry (updateEnvironment s))
  = stage2FuelRemaining (telemetry s).
Proof. frame updateEnvironment. Qed.

Lemma updateEnvironment_pendingIgnition (s : Sim) :
  pendingIgnition (updateEnvironment s) = pendingIgnition s.
Proof. frame updateEnvironment. Qed.

Lemma calculateOrbitalParams_mass (s : Sim) :
  mass (telemetry (calculateOrbitalParams s)) = mass (telemetry s).
Proof. frame calculateOrbitalParams. Qed.

Lemma calculateOrbitalParams_propellantRemaining (s : Sim) :
  propellantRemaining (telemetry (calculateOrbitalParams s))
  = propellantRemaining (telemetry s).
Proof. frame calculateOrbitalParams. Qed.

Lemma calculateOrbitalParams_stage1BurnTime (s : Sim) :
  stage1BurnTime (telemetry (calculateOrbitalParams s)) = stage1BurnTime (telemetry s).
Proof. frame calculateOrbitalParams. Qed.

Lemma calculateOrbitalParams_stage2BurnTime (s : Sim) :
  stage2BurnTime (telemetry (calculateOrbitalParams s)) = stage2BurnTime (telemetry s).
Proof. frame calculateOrbitalParams. Qed.

Lemma calculateOrbitalParams_stage1FuelRemaining (s : Sim) :
  stage1FuelRemaining (telemetry (calculateOrbitalParams s))
  = stage1FuelRemaining (telemetry s).
Proof. frame calculateOrbitalParams. Qed.

Lemma calculateOrbitalParams_stage2FuelRemaining (s : Sim) :
  stage2FuelRemaining (telemetry (calculateOrbitalParams s))
  = stage2FuelRemaining (telemetry s).
Proof. frame calculateOrbitalParams. Qed.

Lemma calculateOrbitalParams_dynamicPressure (s : Sim) :
  dynamicPressure (telemetry (calculateOrbitalParams s))
  = dynamicPressure (telemetry s).
Proof. frame calculateOrbitalParams. Qed.

Lemma calculateOrbitalParams_maxQ (s : Sim) :
  maxQ (telemetry (calculateOrbitalParams s)) = maxQ (telemetry s).
Proof. frame calculateOrbitalParams. Qed.

Lemma calculateOrbitalParams_pendingIgnition (s : Sim) :
  pendingIgnition (calculateOrbitalParams s) = pendingIgnition s.
Proof. frame calculateOrbitalParams. Qed.

Create Rewrite HintDb frame.

#[local] Hint Rewrite
  updateEnvironment_state calculateOrbitalParams_state
  updateEnvironment_altitude updateEnvironment_velocity updateEnvironment_thrust
  updateEnvironment_mass updateEnvironment_propellantRemaining
  updateEnvironment_stage1BurnTime updateEnvironment_stage2BurnTime
  updateEnvironment_stage1FuelRemaining updateEnvironment_stage2FuelRemaining
  updateEnvironment_pendingIgnition
  calculateOrbitalParams_altitude calculateOrbitalParams_velocity
  calculateOrbitalParams_thrust calculateOrbitalParams_mass
  calculateOrbitalParams_propellantRemaining
  calculateOrbitalParams_stage1BurnTime calculateOrbitalParams_stage2BurnTime
  calculateOrbitalParams_stage1FuelRemaining calculateOrbitalParams_stage2FuelRemaining
  calculateOrbitalParams_dynamicPressure calculateOrbitalParams_maxQ
  calculateOrbitalParams_pendingIgnition : frame.

(** ** Powered flight: [simulateAscent] *)

Lemma updateGuidance_state (s : Sim) :
  state (updateGuidance s)
  = guidanceThrottle (dynamicPressure (telemetry s)) (state s).
Proof.
  unfold updateGuidance, guidanceThrottle.
  repeat (case_if; cbn); try reflexivity; congruence.
Qed.

Lemma simulateAscent_state (s : Sim) :
  state (simulateAscent s)
  = guidanceThrottle (dynamicPressure (telemetry s)) (state s).
Proof.
  unfold simulateAscent. cbn. rewrite updateGuidance_state.
  case_if; reflexivity.
Qed.

Lemma guidanceThrottle_phase (q : R) (x : FlightState) :
  phase (guidanceThrottle q x) = phase x.
Proof. frame guidanceThrottle. Qed.

Lemma guidanceThrottle_stageNumber (q : R) (x : FlightState) :
  stageNumber (guidanceThrottle q x) = stageNumber x.
Proof. frame guidanceThrottle. Qed.

Lemma guidanceThrottle_missionTime (q : R) (x : FlightState) :
  missionTime (guidanceThrottle q x) = missionTime x.
Proof. frame guidanceThrottle. Qed.


Lemma updateGuidance_thrust (s : Sim) :
  thrust (telemetry (updateGuidance s)) = thrust (telemetry s).
Proof. frame updateGuidance. Qed.

Lemma updateGuidance_propellantRemaining (s : Sim) :
  propellantRemaining (telemetry (updateGuidance s)) = propellantRemaining (telemetry s).
Proof. frame updateGuidance. Qed.

Lemma updateGuidance_stage1BurnTime (s : Sim) :
  stage1BurnTime (telemetry (updateGuidance s)) = stage1BurnTime (telemetry s).
Proof. frame updateGuidance. Qed.

Lemma updateGuidance_stage2BurnTime (s : Sim) :
  stage2BurnTime (telemetry (updateGuidance s)) = stage2BurnTime (telemetry s).
Proof. frame updateGuidance. Qed.

Lemma updateGuidance_stage1FuelRemaining (s : Sim) :
  stage1FuelRemaining (telemetry (updateGuidance s)) = stage1FuelRemaining (telemetry s).
Proof. frame updateGuidance. Qed.

Lemma updateGuidance_stage2FuelRemaining (s : Sim) :
  stage2FuelRemaining (telemetry (updateGuidance s)) = stage2FuelRemaining (telemetry s).
Proof. frame updateGuidance. Qed.

Lemma updateGuidance_dynamicPressure (s : Sim) :
  dynamicPressure (telemetry (updateGuidance s)) = dynamicPressure (telemetry s).
Proof. frame updateGuidance. Qed.

Lemma updateGuidance_maxQ (s : Sim) :
  maxQ (telemetry (updateGuidance s)) = maxQ (telemetry s).
Proof. frame updateGuidance. Qed.

Lemma updateGuidance_pendingIgnition (s : Sim) :
  pendingIgnition (updateGuidance s) = pendingIgnition s.
Proof. frame updateGuidance. Qed.

Lemma simulateAscent_pendingIgnition (s : Sim) :
  pendingIgnition (simulateAscent s) = pendingIgnition s.
Proof.
  unfold simulateAscent. cbn. rewrite updateGuidance_pendingIgnition.
  case_if; reflexivity.
Qed.


Lemma simulateAscent_burnTime (s : Sim) :
  activeBurnTime (stageNumber (state s)) (telemetry (simulateAscent s))
  = activeBurnTime (stageNumber (state s)) (telemetry s) + 0.1.
Proof.
  unfold simulateAscent, activeBurnTime. cbn.
  case_if; cbn;
    rewrite ?updateGuidance_stage1BurnTime, ?updateGuidance_stage2BurnTime;
    reflexivity.
Qed.

Lemma simulateAscent_propellantRemaining (s : Sim) :
  propellantRemaining (telemetry (simulateAscent s))
  = Rmax 0 (100 * (1 - activeBurnTime (stageNumber (state s)) (telemetry (simulateAscent s))
                       / Stage.burnTime (activeStage s))).
Proof.
  rewrite simulateAscent_burnTime.
  unfold simulateAscent, activeBurnTime, activeStage. cbn.
  rewrite updateGuidance_propellantRemaining.
  case_if; reflexivity.
Qed.

Lemma simulateAscent_stage1FuelRemaining (s : Sim) :
  stageNumber (state s) = 1%Z ->
  stage1FuelRemaining (telemetry (simulateAscent s))
  = propellantRemaining (telemetry (simulateAscent s)).
Proof.
  intros H. unfold simulateAscent. cbn.
  rewrite updateGuidance_propellantRemaining, updateGuidance_stage1FuelRemaining.
  rewrite H. reflexivity.
Qed.

Lemma simulateAscent_stage2FuelRemaining (s : Sim) :
  stageNumber (state s) <> 1%Z ->
  stage2FuelRemaining (telemetry (simulateAscent s))
  = propellantRemaining (telemetry (simulateAscent s)).
Proof.
  intros H. unfold simulateAscent. cbn.
  rewrite updateGuidance_propellantRemaining, updateGuidance_stage2FuelRemaining.
  apply Z.eqb_neq in H. rewrite H. reflexivity.
Qed.

Lemma simulateAscent_dynamicPressure (s : Sim) :
  dynamicPressure (telemetry (simulateAscent s)) = dynamicPressure (telemetry s).
Proof.
  unfold simulateAscent. cbn. rewrite updateGuidance_dynamicPressure.
  case_if; reflexivity.
Qed.

Lemma simulateAscent_maxQ (s : Sim) :
  maxQ (telemetry (simulateAscent s)) = maxQ (telemetry s).
Proof.
  unfold simulateAscent. cbn. rewrite updateGuidance_maxQ.
  case_if; reflexivity.
Qed.

(** ** The structure of a tick *)

Lemma tick_active (s : Sim) :
  phase (state s) <> PAD -> phase (state s) <> ORBIT -> phase (state s) <> LANDED ->
  tick s = checkPhaseTransitions
             (calculateOrbitalParams
                (updateEnvironment (dispatch (advanceMissionTime s)))).
Proof.
  intros H1 H2 H3. unfold tick, updateSimulation, phaseIs.
  destruct (phase (state s)); try congruence; reflexivity.
Qed.

Lemma advanceMissionTime_telemetry (s : Sim) :
  telemetry (advanceMissionTime s) = telemetry s.
Proof. frame advanceMissionTime. Qed.

Lemma advanceMissionTime_phase (s : Sim) :
  phase (state (advanceMissionTime s)) = phase (state s).
Proof. frame advanceMissionTime. Qed.

Lemma advanceMissionTime_stageNumber (s : Sim) :
  stageNumber (state (advanceMissionTime s)) = stageNumber (state s).
Proof. frame advanceMissionTime. Qed.

Lemma advanceMissionTime_throttleLevel (s : Sim) :
  throttleLevel (state (advanceMissionTime s)) = throttleLevel (state s).
Proof. frame advanceMissionTime. Qed.

Lemma advanceMissionTime_pendingIgnition (s : Sim) :
  pendingIgnition (advanceMissionTime s) = pendingIgnition s.
Proof. frame advanceMissionTime. Qed.

Lemma advanceMissionTime_missionTime (s : Sim) :
  phase (state s) <> ABORT -> phase (state s) <> LANDING ->
  missionTime (state (advanceMissionTime s)) = missionTime (state s) + 0.1.
Proof.
  intros H1 H2. unfold advanceMissionTime, phaseIs.
  destruct (phase (state s)); try congruence; reflexivity.
Qed.

Lemma advanceMissionTime_frozen (s : Sim) :
  phase (state s) = ABORT \/ phase (state s) = LANDING ->
  advanceMissionTime s = s.
Proof.
  intros [H | H]; unfold advanceMissionTime, phaseIs; rewrite H; reflexivity.
Qed.

#[local] Hint Rewrite
  advanceMissionTime_telemetry advanceMissionTime_phase
  advanceMissionTime_stageNumber advanceMissionTime_throttleLevel
  advanceMissionTime_pendingIgnition : frame.

Lemma tick_powered (s : Sim) :
  powered s ->
  tick s = checkPhaseTransitions
             (calculateOrbitalParams
                (updateEnvironment (simulateAscent (advanceMissionTime s)))).
Proof.
  intros H. rewrite tick_active by (destruct H as [H | [H | H]]; rewrite H; discriminate).
  unfold dispatch. rewrite advanceMissionTime_phase.
  destruct H as [H | [H | H]]; rewrite H; reflexivity.
Qed.

(** ** Phase transitions *)

(** [transitions E] runs the transition check under the known phase [E]. *)
Ltac transitions E :=
  unfold checkPhaseTransitions, separateStage, phaseIs;
  repeat (cbn; rewrite ?E; cbn; try case_if).

Arguments transitionFrame : simpl never.

Lemma checkPhaseTransitions_frame (s : Sim) :
  transitionFrame s (checkPhaseTransitions s).
Proof.
  destruct (phase (state s)) eqn:E; transitions E;
    unfold transitionFrame; repeat split; reflexivity.
Qed.

Lemma checkPhaseTransitions_throttleLevel (s : Sim) :
  throttleLevel (state (checkPhaseTransitions s)) = throttleLevel (state s).
Proof. apply (checkPhaseTransitions_frame s). Qed.

Lemma checkPhaseTransitions_missionTime (s : Sim) :
  missionTime (state (checkPhaseTransitions s)) = missionTime (state s).
Proof. apply (checkPhaseTransitions_frame s). Qed.

Lemma checkPhaseTransitions_propellantRemaining (s : Sim) :
  propellantRemaining (telemetry (checkPhaseTransitions s)) = propellantRemaining (telemetry s).
Proof. apply (checkPhaseTransitions_frame s). Qed.

Lemma checkPhaseTransitions_stage1BurnTime (s : Sim) :
  stage1BurnTime (telemetry (checkPhaseTransitions s)) = stage1BurnTime (telemetry s).
Proof. apply (checkPhaseTransitions_frame s). Qed.

Lemma checkPhaseTransitions_stage2BurnTime (s : Sim) :
  stage2BurnTime (telemetry (checkPhaseTransitions s)) = stage2BurnTime (telemetry s).
Proof. apply (checkPhaseTransitions_frame s). Qed.

Lemma checkPhaseTransitions_dynamicPressure (s : Sim) :
  dynamicPressure (telemetry (checkPhaseTransitions s)) = dynamicPressure (telemetry s).
Proof. apply (checkPhaseTransitions_frame s). Qed.

Lemma checkPhaseTransitions_maxQ (s : Sim) :
  maxQ (telemetry (checkPhaseTransitions s)) = maxQ (telemetry s).
Proof. apply (checkPhaseTransitions_frame s). Qed.

Lemma checkPhaseTransitions_altitude (s : Sim) :
  altitude (telemetry (checkPhaseTransitions s)) = altitude (telemetry s).
Proof. apply (checkPhaseTransitions_frame s). Qed.

Lemma checkPhaseTransitions_velocity (s : Sim) :
  velocity (telemetry (checkPhaseTransitions s)) = velocity (telemetry s).
Proof. apply (checkPhaseTransitions_frame s). Qed.

#[local] Hint Rewrite
  checkPhaseTransitions_throttleLevel checkPhaseTransitions_missionTime
  checkPhaseTransitions_propellantRemaining
  checkPhaseTransitions_stage1BurnTime checkPhaseTransitions_stage2BurnTime
  checkPhaseTransitions_dynamicPressure checkPhaseTransitions_maxQ
  checkPhaseTransitions_altitude checkPhaseTransitions_velocity : frame.



(** Engine cutoff and stage separation in one call: with the first stage
    burnt out and the mission clock past three seconds, the cutoff branch and
    the separation branch both run. *)
Lemma checkPhaseTransitions_meco (s : Sim) :
  phase (state s) = ASCENT -> stageNumber (state s) = 1%Z ->
  stage1BurnTime (telemetry s) >= 162 ->
  missionTime (state s) > 3 ->
  checkPhaseTransitions s = separateStage (tm (set_thrust 0) (st (set_phase MECO) s)).
Proof.
  intros Hp Hn Hb Ht. unfold checkPhaseTransitions, phaseIs.
  rewrite Hp. cbn. rewrite Hp, Hn. cbn.
  destruct (Rgeb_spec (stage1BurnTime (telemetry s)) 162); [| contradiction].
  rewrite orb_true_r. cbn.
  destruct (Rgtb_spec (missionTime (state s)) 3); [| contradiction].
  cbn. unfold separateStage. cbn. rewrite Hn. cbn. reflexivity.
Qed.

(** With a first stage attached and the clock past three seconds, no call of
    the transition check ends in [MECO]. *)
Lemma checkPhaseTransitions_leaves_meco (s : Sim) :
  stageNumber (state s) = 1%Z -> missionTime (state s) > 3 ->
  phase (state (checkPhaseTransitions s)) <> MECO.
Proof.
  intros Hn Ht.
  assert (Hc : (missionTime (state s) >? 3) = true)
    by (destruct (Rgtb_spec (missionTime (state s)) 3); [reflexivity | contradiction]).
  apply Z.eqb_eq in Hn.
  destruct (phase (state s)) eqn:E;
    unfold checkPhaseTransitions, separateStage, phaseIs;
    repeat (cbn; rewrite ?E, ?Hn, ?Hc; cbn; try case_if);
    first [discriminate | congruence].
Qed.

(** ** The tick in [ABORTED_STOPPED] *)

Lemma simulateAbort_missionTime (s : Sim) :
  missionTime (state (simulateAbort s)) = missionTime (state s).
Proof. frame simulateAbort. Qed.

Lemma abortedOnPad_phase : phase (state abortedOnPad) = ABORTED_STOPPED.
Proof.
  unfold abortedOnPad.
  destruct (tick_abort_step (abort constructor) eq_refl) as [_ [[P _] | [_ [L U]]]].
  - exact P.
  - change (altitude (telemetry (abort constructor))) with 0 in U. lra.
Qed.

Lemma abortedOnPad_missionTime : missionTime (state abortedOnPad) = 0.
Proof.
  unfold abortedOnPad. rewrite tick_in_abort by reflexivity.
  autorewrite with frame. rewrite simulateAbort_missionTime. reflexivity.
Qed.

(** C1, at the failing input.  The simulator [abortedOnPad] is in
    [ABORTED_STOPPED] with the mission clock at zero; a further call of
    [updateSimulation] is not a no-op: it moves the mission clock to 0.1, so
    the flight state is not the one before the call. *)
Theorem aborted_stopped_tick_advances_clock :
  phase (state abortedOnPad) = ABORTED_STOPPED
  /\ missionTime (state abortedOnPad) = 0
  /\ missionTime (state (snd (updateSimulation abortedOnPad))) = 0.1
  /\ state (snd (updateSimulation abortedOnPad)) <> state abortedOnPad.
Proof.
  pose proof abortedOnPad_phase as P. pose proof abortedOnPad_missionTime as M.
  pose proof (tick_aborted_stopped_state abortedOnPad P) as T. unfold tick in T.
  assert (M' : missionTime (state (snd (updateSimulation abortedOnPad))) = 0.1)
    by (rewrite T; cbn [missionTime set_missionTime]; rewrite M; lra).
  repeat split; auto.
  intros E. rewrite E in M'. lra.
Qed.

(** ** Engine cutoff and stage separation *)

Lemma simulateAscent_phase (s : Sim) :
  phase (state (simulateAscent s)) = phase (state s).
Proof. rewrite simulateAscent_state. apply guidanceThrottle_phase. Qed.

Lemma simulateAscent_stageNumber (s : Sim) :
  stageNumber (state (simulateAscent s)) = stageNumber (state s).
Proof. rewrite simulateAscent_state. apply guidanceThrottle_stageNumber. Qed.

Lemma simulateAscent_missionTime (s : Sim) :
  missionTime (state (simulateAscent s)) = missionTime (state s).
Proof. rewrite simulateAscent_state. apply guidanceThrottle_missionTime. Qed.

(** The tick on which the first stage's burn time reaches its rated 162 s:
    the cutoff and the separation happen on that same tick, whatever the time
    since the cutoff, as soon as the mission clock itself is past 3 s. *)
Lemma tick_meco_separates (s : Sim) :
  phase (state s) = ASCENT -> stageNumber (state s) = 1%Z ->
  stage1BurnTime (telemetry s) + 0.1 >= 162 ->
  missionTime (state s) + 0.1 > 3 ->
  phase (state (tick s)) = STAGE_SEP
  /\ stageNumber (state (tick s)) = 2%Z
  /\ missionTime (state (tick s)) = missionTime (state s) + 0.1
  /\ mass (telemetry (tick s)) = 138300
  /\ pendingIgnition (tick s) = S (pendingIgnition s).
Proof.
  intros Hp Hn Hb Ht.
  rewrite tick_powered by (right; left; exact Hp).
  set (x := calculateOrbitalParams
              (updateEnvironment (simulateAscent (advanceMissionTime s)))).
  assert (Xp : phase (state x) = ASCENT).
  { subst x. autorewrite with frame. rewrite simulateAscent_phase.
    autorewrite with frame. exact Hp. }
  assert (Xn : stageNumber (state x) = 1%Z).
  { subst x. autorewrite with frame. rewrite simulateAscent_stageNumber.
    autorewrite with frame. exact Hn. }
  assert (Xt : missionTime (state x) = missionTime (state s) + 0.1).
  { subst x. autorewrite with frame. rewrite simulateAscent_missionTime.
    apply advanceMissionTime_missionTime; rewrite Hp; discriminate. }
  assert (Xb : stage1BurnTime (telemetry x) = stage1BurnTime (telemetry s) + 0.1).
  { subst x. autorewrite with frame.
    pose proof (simulateAscent_burnTime (advanceMissionTime s)) as B.
    unfold activeBurnTime in B. autorewrite with frame in B.
    rewrite Hn in B. exact B. }
  assert (Xk : pendingIgnition x = pendingIgnition s).
  { subst x. autorewrite with frame. rewrite simulateAscent_pendingIgnition.
    autorewrite with frame. reflexivity. }
  rewrite checkPhaseTransitions_meco by (rewrite ?Xb, ?Xt; auto; lra).
  unfold separateStage. cbn. rewrite Xn. cbn. rewrite Xt, Xk.
  repeat split; auto. lra.
Qed.

(** C2, at the failing input.  The first stage burns out on the tick taken
    from [endOfFirstStageBurn]: the phase is [ASCENT] with 161.95 s of burn
    before the tick, and [STAGE_SEP] with the second stage active after it,
    at mission time 162.05 s, the time of the cutoff itself.  The separation
    does not wait for three seconds after the cutoff. *)
Theorem separation_on_the_cutoff_tick :
  phase (state endOfFirstStageBurn) = ASCENT
  /\ stage1BurnTime (telemetry endOfFirstStageBurn) < 162
  /\ phase (state (tick endOfFirstStageBurn)) = STAGE_SEP
  /\ stageNumber (state (tick endOfFirstStageBurn)) = 2%Z
  /\ missionTime (state (tick endOfFirstStageBurn)) = 162.05.
Proof.
  destruct (tick_meco_separates endOfFirstStageBurn) as [P [N [T _]]];
    try reflexivity; try (cbn; lra).
  repeat split; auto; try (cbn; lra).
  rewrite T. cbn. lra.
Qed.

(** ** Mass during powered flight *)










(** ** The throttle set by the caller *)

Lemma setThrottle_below (level : R) (s : Sim) :
  level < 100 -> throttleLevel (state (setThrottle level s)) < 100.
Proof.
  intros H. cbn. unfold Rmax, Rmin.
  repeat (destruct (Rle_dec _ _)); lra.
Qed.

(** In powered flight below 25000 Pa the guidance update leaves the throttle
    level at 100, whatever the stage and the level before. *)
Lemma tick_powered_throttle (s : Sim) :
  powered s ->
  dynamicPressure (telemetry s) < 25000 ->
  throttleLevel (state s) <= 100 ->
  throttleLevel (state (tick s)) = 100.
Proof.
  intros Hp Hq Hl. rewrite tick_powered by exact Hp.
  autorewrite with frame. rewrite simulateAscent_state.
  autorewrite with frame. unfold guidanceThrottle.
  destruct (Rgtb_spec (dynamicPressure (telemetry s)) 35000); [lra |].
  destruct (Rltb_spec (dynamicPressure (telemetry s)) 25000); [| contradiction].
  cbn. autorewrite with frame.
  destruct (Rltb_spec (throttleLevel (state s)) 100); cbn; autorewrite with frame; lra.
Qed.

(** C10.  A throttle level below 100 stored by [setThrottle] lasts one tick
    at most: after a tick in [ASCENT] or [SECOND_STAGE] that starts with the
    dynamic pressure below 25000 Pa the throttle level is 100 again, on
    either stage. *)
Theorem setThrottle_does_not_persist (s : Sim) (level : R) :
  phase (state s) = ASCENT \/ phase (state s) = SECOND_STAGE ->
  level < 100 ->
  dynamicPressure (telemetry s) < 25000 ->
  throttleLevel (state (setThrottle level s)) < 100
  /\ throttleLevel (state (tick (setThrottle level s))) = 100.
Proof.
  intros Hp Hl Hq. split; [apply setThrottle_below; exact Hl |].
  apply tick_powered_throttle.
  - right. exact Hp.
  - exact Hq.
  - left. apply setThrottle_below. exact Hl.
Qed.

Lemma setThrottle_does_not_persist_witness :
  throttleLevel (state (setThrottle 60 secondStageAtDryMass)) < 100
  /\ throttleLevel (state (tick (setThrottle 60 secondStageAtDryMass))) = 100.
Proof.
  apply (setThrottle_does_not_persist secondStageAtDryMass 60).
  - right. reflexivity.
  - lra.
  - cbn. lra.
Defined.

(** ** Frame lemmas for the phase updaters *)

Ltac frame_landing :=
  unfold simulateLanding, landingReentry, landingAerodynamic, landingEntryBurn,
    landingCoast, landingBurn, landingTouchdown, landingLanded;
  repeat (case_if; cbn); reflexivity.

Lemma simulateIgnition_maxQ (s : Sim) :
  maxQ (telemetry (simulateIgnition s)) = maxQ (telemetry s).
Proof. frame simulateIgnition. Qed.

Lemma simulateIgnition_propellantRemaining (s : Sim) :
  propellantRemaining (telemetry (simulateIgnition s))
  = propellantRemaining (telemetry s).
Proof. frame simulateIgnition. Qed.

Lemma simulateIgnition_stage1BurnTime (s : Sim) :
  stage1BurnTime (telemetry (simulateIgnition s)) = stage1BurnTime (telemetry s).
Proof. frame simulateIgnition. Qed.

Lemma simulateIgnition_stage2BurnTime (s : Sim) :
  stage2BurnTime (telemetry (simulateIgnition s)) = stage2BurnTime (telemetry s).
Proof. frame simulateIgnition. Qed.

Lemma simulateMECO_maxQ (s : Sim) :
  maxQ (telemetry (simulateMECO s)) = maxQ (telemetry s).
Proof. frame simulateMECO. Qed.

Lemma simulateMECO_propellantRemaining (s : Sim) :
  propellantRemaining (telemetry (simulateMECO s)) = propellantRemaining (telemetry s).
Proof. frame simulateMECO. Qed.

Lemma simulateMECO_stage1BurnTime (s : Sim) :
  stage1BurnTime (telemetry (simulateMECO s)) = stage1BurnTime (telemetry s).
Proof. frame simulateMECO. Qed.

Lemma simulateMECO_stage2BurnTime (s : Sim) :
  stage2BurnTime (telemetry (simulateMECO s)) = stage2BurnTime (telemetry s).
Proof. frame simulateMECO. Qed.

Lemma simulateAbort_maxQ (s : Sim) :
  maxQ (telemetry (simulateAbort s)) = maxQ (telemetry s).
Proof. frame simulateAbort. Qed.

Lemma simulateAbort_stage1BurnTime (s : Sim) :
  stage1BurnTime (telemetry (simulateAbort s)) = stage1BurnTime (telemetry s).
Proof. frame simulateAbort. Qed.

Lemma simulateAbort_stage2BurnTime (s : Sim) :
  stage2BurnTime (telemetry (simulateAbort s)) = stage2BurnTime (telemetry s).
Proof. frame simulateAbort. Qed.

Lemma simulateAbort_propellantRemaining (s : Sim) :
  propellantRemaining (telemetry (simulateAbort s)) = propellantRemaining (telemetry s)
  \/ propellantRemaining (telemetry (simulateAbort s))
     = Rmax 0 (propellantRemaining (telemetry s) * 0.95).
Proof. unfold simulateAbort. repeat (case_if; cbn); auto. Qed.

Lemma simulateLanding_maxQ (s : Sim) :
  maxQ (telemetry (simulateLanding s)) = maxQ (telemetry s).
Proof. frame_landing. Qed.

Lemma simulateLanding_propellantRemaining (s : Sim) :
  propellantRemaining (telemetry (simulateLanding s))
  = propellantRemaining (telemetry s).
Proof. frame_landing. Qed.

Lemma simulateLanding_stage1BurnTime (s : Sim) :
  stage1BurnTime (telemetry (simulateLanding s)) = stage1BurnTime (telemetry s).
Proof. frame_landing. Qed.

Lemma simulateLanding_stage2BurnTime (s : Sim) :
  stage2BurnTime (telemetry (simulateLanding s)) = stage2BurnTime (telemetry s).
Proof. frame_landing. Qed.

Lemma simulateAscent_stage1BurnTime (s : Sim) :
  stage1BurnTime (telemetry (simulateAscent s))
  = if (stageNumber (state s) =? 1)%Z
    then stage1BurnTime (telemetry s) + 0.1 else stage1BurnTime (telemetry s).
Proof.
  unfold simulateAscent. cbn. rewrite updateGuidance_stage1BurnTime.
  case_if; reflexivity.
Qed.

Lemma simulateAscent_stage2BurnTime (s : Sim) :
  stage2BurnTime (telemetry (simulateAscent s))
  = if (stageNumber (state s) =? 1)%Z
    then stage2BurnTime (telemetry s) else stage2BurnTime (telemetry s) + 0.1.
Proof.
  unfold simulateAscent. cbn. rewrite updateGuidance_stage2BurnTime.
  case_if; reflexivity.
Qed.

Lemma dispatch_maxQ (s : Sim) :
  maxQ (telemetry (dispatch s)) = maxQ (telemetry s).
Proof.
  unfold dispatch, simulateStageSeparation, simulateSecondStage.
  destruct (phase (state s));
    auto using simulateIgnition_maxQ, simulateAscent_maxQ, simulateMECO_maxQ,
      simulateAbort_maxQ, simulateLanding_maxQ.
Qed.

(** ** The running maximum of the dynamic pressure *)

Lemma updateEnvironment_dynamicPressure_nonneg (s : Sim) :
  0 <= dynamicPressure (telemetry (updateEnvironment s)).
Proof.
  unfold updateEnvironment.
  pose proof (exp_pos (- altitude (telemetry s) / 8000)) as He.
  repeat (case_if; cbn); try lra;
    rewrite Rmult_assoc; apply Rmult_le_pos; nra.
Qed.

Lemma updateEnvironment_maxQ (s : Sim) :
  0 <= maxQ (telemetry s) ->
  maxQ (telemetry (updateEnvironment s))
  = Rmax (maxQ (telemetry s)) (dynamicPressure (telemetry (updateEnvironment s))).
Proof.
  intros H. unfold updateEnvironment.
  repeat (first [case_cmp | case_if]; cbn);
    unfold Rmax; destruct (Rle_dec _ _); lra.
Qed.

Lemma updateEnvironment_maxQ_le (s : Sim) :
  maxQ (telemetry s) <= maxQ (telemetry (updateEnvironment s)).
Proof.
  unfold updateEnvironment.
  repeat (first [case_cmp | case_if]; cbn); lra.
Qed.

Lemma tick_environment (s : Sim) :
  environmentRuns s = true ->
  tick s = checkPhaseTransitions (calculateOrbitalParams (afterEnvironment s)).
Proof.
  intros H. unfold tick, updateSimulation, afterEnvironment.
  unfold environmentRuns in H. apply negb_true_iff in H. rewrite H. reflexivity.
Qed.

Lemma tick_idle (s : Sim) : environmentRuns s = false -> tick s = s.
Proof.
  intros H. unfold tick, updateSimulation.
  unfold environmentRuns in H. apply negb_false_iff in H. rewrite H. reflexivity.
Qed.

Lemma afterEnvironment_maxQ (s : Sim) :
  0 <= maxQ (telemetry s) ->
  maxQ (telemetry (afterEnvironment s))
  = Rmax (maxQ (telemetry s)) (dynamicPressure (telemetry (afterEnvironment s))).
Proof.
  intros H. unfold afterEnvironment.
  rewrite updateEnvironment_maxQ; rewrite dispatch_maxQ;
    autorewrite with frame; [reflexivity | exact H].
Qed.

Lemma tick_maxQ (s : Sim) :
  0 <= maxQ (telemetry s) ->
  maxQ (telemetry (tick s))
  = if environmentRuns s
    then Rmax (maxQ (telemetry s)) (dynamicPressure (telemetry (afterEnvironment s)))
    else maxQ (telemetry s).
Proof.
  intros H. destruct (environmentRuns s) eqn:E.
  - rewrite tick_environment by exact E. autorewrite with frame.
    apply afterEnvironment_maxQ. exact H.
  - rewrite tick_idle by exact E. reflexivity.
Qed.

Lemma tick_maxQ_le (s : Sim) : maxQ (telemetry s) <= maxQ (telemetry (tick s)).
Proof.
  destruct (environmentRuns s) eqn:E.
  - rewrite tick_environment by exact E. autorewrite with frame.
    unfold afterEnvironment.
    eapply Rle_trans; [| apply updateEnvironment_maxQ_le].
    rewrite dispatch_maxQ. autorewrite with frame. lra.
  - rewrite tick_idle by exact E. lra.
Qed.

(** No call other than the tick writes [maxQ]. *)
Lemma exec_maxQ (c : Call) (s : Sim) :
  c <> CallUpdateSimulation ->
  maxQ (telemetry (exec c s)) = maxQ (telemetry s).
Proof.
  intros H. destruct c; try congruence; cbn; try reflexivity.
  - frame armIgnition.
  - frame startIgnitionSequence.
  - unfold launch, phaseIs. destruct (phase (state s)); reflexivity.
  - frame separateStage.
  - unfold secondStageIgnition. destruct (pendingIgnition s); reflexivity.
Qed.

Lemma exec_maxQ_le (c : Call) (s : Sim) :
  maxQ (telemetry s) <= maxQ (telemetry (exec c s)).
Proof.
  destruct c; try (rewrite exec_maxQ by discriminate; lra).
  apply tick_maxQ_le.
Qed.

Lemma maxPressure_nonneg (l : list R) : 0 <= maxPressure l.
Proof.
  induction l as [| q l IH]; cbn; [lra |].
  eapply Rle_trans; [exact IH | apply Rmax_r].
Qed.

Lemma maxPressure_upper (l : list R) (q : R) : In q l -> q <= maxPressure l.
Proof.
  induction l as [| p l IH]; cbn; [contradiction |].
  intros [E | H].
  - subst. apply Rmax_l.
  - eapply Rle_trans; [apply IH; exact H | apply Rmax_r].
Qed.

Lemma maxPressure_attained (l : list R) :
  (forall q, In q l -> 0 <= q) -> l <> [] -> In (maxPressure l) l.
Proof.
  induction l as [| p l IH]; intros Hpos Hne; [congruence |].
  change (maxPressure (p :: l)) with (Rmax p (maxPressure l)).
  destruct (Rle_dec p (maxPressure l)) as [Hle | Hgt].
  - rewrite Rmax_right by exact Hle.
    destruct l as [| p' l].
    + left. cbn in *. apply Rle_antisym; [exact Hle |]. apply Hpos. left. reflexivity.
    + right. apply IH; [| discriminate].
      intros q Hq. apply Hpos. right. exact Hq.
  - left. symmetry. apply Rmax_left. lra.
Qed.

Lemma observedPressures_nonneg (calls : list Call) :
  forall (s : Sim) (q : R), In q (observedPressures s calls) -> 0 <= q.
Proof.
  induction calls as [| c calls IH]; intros s q; cbn; [contradiction |].
  destruct c; try apply IH.
  destruct (environmentRuns s); [| apply IH].
  intros [E | H]; [| eapply IH; exact H].
  subst q. apply updateEnvironment_dynamicPressure_nonneg.
Qed.

(** After a run from [s], [maxQ] is the larger of its value in [s] and the
    largest pressure observed since. *)
Lemma runFrom_maxQ (calls : list Call) :
  forall s : Sim,
    0 <= maxQ (telemetry s) ->
    maxQ (telemetry (runFrom s calls))
    = Rmax (maxQ (telemetry s)) (maxPressure (observedPressures s calls)).
Proof.
  induction calls as [| c calls IH]; intros s H.
  - cbn. rewrite Rmax_left; [reflexivity | exact H].
  - assert (H' : 0 <= maxQ (telemetry (exec c s)))
      by (eapply Rle_trans; [exact H | apply exec_maxQ_le]).
    cbn [runFrom observedPressures]. rewrite (IH _ H').
    destruct c; try (rewrite exec_maxQ by discriminate; reflexivity).
    cbn [exec]. rewrite tick_maxQ by exact H.
    destruct (environmentRuns s); [| reflexivity].
    cbn [maxPressure fold_right]. fold (maxPressure (observedPressures (tick s) calls)).
    rewrite Rmax_assoc. reflexivity.
Qed.

(** C5.  Along every run [maxQ] never decreases from one call (one tick in
    particular) to the next, and it is the maximum of the dynamic pressures
    seen at the end of the environment update of the ticks so far: it bounds
    them all, it is one of them when there is one, and it is zero before the
    first. *)
Theorem maxQ_is_running_maximum (calls : list Call) :
  maxQ (telemetry (run calls)) <= maxQ (telemetry (tick (run calls)))
  /\ (forall c : Call, maxQ (telemetry (run calls)) <= maxQ (telemetry (exec c (run calls))))
  /\ (forall q : R, In q (observedPressures constructor calls) ->
                    q <= maxQ (telemetry (run calls)))
  /\ (observedPressures constructor calls <> [] ->
      In (maxQ (telemetry (run calls))) (observedPressures constructor calls))
  /\ (observedPressures constructor calls = [] -> maxQ (telemetry (run calls)) = 0).
Proof.
  assert (E : maxQ (telemetry (run calls))
              = maxPressure (observedPressures constructor calls)).
  { unfold run. rewrite runFrom_maxQ by (cbn; lra).
    change (maxQ (telemetry constructor)) with 0.
    apply Rmax_right. apply maxPressure_nonneg. }
  split; [apply tick_maxQ_le |].
  split; [intros c; apply exec_maxQ_le |].
  rewrite E. split; [| split].
  - intros q Hq. apply maxPressure_upper. exact Hq.
  - apply maxPressure_attained. apply observedPressures_nonneg.
  - intros ->. reflexivity.
Qed.

(** ** The propellant percentage *)

Lemma burnTime_pos (s : Sim) : 0 < Stage.burnTime (activeStage s).
Proof. unfold activeStage. destruct (stageNumber (state s) =? 1)%Z; cbn; lra. Qed.

Lemma propellant_formula_bounds (b T : R) :
  0 < T -> 0 <= b -> 0 <= Rmax 0 (100 * (1 - b / T)) <= 100.
Proof.
  intros HT Hb. split; [apply Rmax_l |].
  assert (0 <= b / T) by (apply Rmult_le_pos; [exact Hb | left; apply Rinv_0_lt_compat; exact HT]).
  apply Rmax_lub; lra.
Qed.

Lemma propellant_formula_empty (b T : R) :
  0 < T -> b >= T -> Rmax 0 (100 * (1 - b / T)) = 0.
Proof.
  intros HT Hb. apply Rmax_left.
  assert (1 <= b / T).
  { apply Rmult_le_reg_r with (r := T); [exact HT |].
    unfold Rdiv. rewrite Rmult_assoc, Rinv_l by lra. lra. }
  lra.
Qed.

Lemma simulateAscent_invariant (s : Sim) :
  propellantInvariant s -> propellantInvariant (simulateAscent s).
Proof.
  intros [Hp [H1 H2]]. unfold propellantInvariant.
  rewrite simulateAscent_propellantRemaining, simulateAscent_burnTime.
  rewrite simulateAscent_stage1BurnTime, simulateAscent_stage2BurnTime.
  split.
  - apply propellant_formula_bounds; [apply burnTime_pos |].
    unfold activeBurnTime. destruct (stageNumber (state s) =? 1)%Z; lra.
  - destruct (stageNumber (state s) =? 1)%Z; lra.
Qed.

Lemma simulateAbort_invariant (s : Sim) :
  propellantInvariant s -> propellantInvariant (simulateAbort s).
Proof.
  intros [Hp [H1 H2]]. unfold propellantInvariant.
  rewrite simulateAbort_stage1BurnTime, simulateAbort_stage2BurnTime.
  destruct (simulateAbort_propellantRemaining s) as [E | E]; rewrite E.
  - auto.
  - repeat split; auto; [apply Rmax_l | apply Rmax_lub; lra].
Qed.

Lemma dispatch_invariant (s : Sim) :
  propellantInvariant s -> propellantInvariant (dispatch s).
Proof.
  intros H. unfold dispatch, simulateStageSeparation, simulateSecondStage.
  destruct (phase (state s));
    auto using simulateAscent_invariant, simulateAbort_invariant;
    unfold propellantInvariant;
    rewrite ?simulateIgnition_propellantRemaining, ?simulateIgnition_stage1BurnTime,
      ?simulateIgnition_stage2BurnTime, ?simulateMECO_propellantRemaining,
      ?simulateMECO_stage1BurnTime, ?simulateMECO_stage2BurnTime,
      ?simulateLanding_propellantRemaining, ?simulateLanding_stage1BurnTime,
      ?simulateLanding_stage2BurnTime;
    exact H.
Qed.

Lemma tick_invariant (s : Sim) :
  propellantInvariant s -> propellantInvariant (tick s).
Proof.
  intros H. destruct (environmentRuns s) eqn:E.
  - rewrite tick_environment by exact E. unfold afterEnvironment.
    assert (D : propellantInvariant (dispatch (advanceMissionTime s))).
    { apply dispatch_invariant. unfold propellantInvariant.
      autorewrite with frame. exact H. }
    unfold propellantInvariant in *. autorewrite with frame. exact D.
  - rewrite tick_idle by exact E. exact H.
Qed.

Lemma exec_invariant (c : Call) (s : Sim) :
  propellantInvariant s -> propellantInvariant (exec c s).
Proof.
  intros H. destruct c; cbn [exec]; try exact H.
  - unfold armIgnition. case_if; exact H.
  - unfold startIgnitionSequence. case_if; exact H.
  - unfold launch, phaseIs. destruct (phase (state s)); exact H.
  - apply tick_invariant. exact H.
  - unfold separateStage. case_if; exact H.
  - unfold secondStageIgnition. destruct (pendingIgnition s); exact H.
Qed.

Lemma run_invariant (calls : list Call) : propellantInvariant (run calls).
Proof.
  unfold run.
  assert (G : forall s, propellantInvariant s -> propellantInvariant (runFrom s calls)).
  { induction calls as [| c calls IH]; intros s H; [exact H |].
    cbn. apply IH. apply exec_invariant. exact H. }
  apply G. unfold propellantInvariant. cbn. lra.
Qed.

(** A tick of powered flight leaves [propellantRemaining] at the value the
    burn-time formula gives for the stage that burnt. *)
Lemma tick_powered_propellant (s : Sim) :
  powered s ->
  propellantRemaining (telemetry (tick s))
  = Rmax 0 (100 * (1 - activeBurnTime (stageNumber (state s)) (telemetry (tick s))
                       / Stage.burnTime (activeStage s))).
Proof.
  intros H. rewrite tick_powered by exact H.
  unfold activeBurnTime. autorewrite with frame.
  rewrite simulateAscent_propellantRemaining.
  unfold activeBurnTime, activeStage. autorewrite with frame. reflexivity.
Qed.

(** C4.  After every call of every run, so at every tick,
    [propellantRemaining] is between 0 and 100; and a tick of powered flight
    that brings the burn time of the stage that burns to its rated burn time,
    or beyond, ends with [propellantRemaining] at exactly 0. *)
Theorem propellant_bounds_and_depletion :
  (forall calls : list Call,
      0 <= propellantRemaining (telemetry (run calls)) <= 100)
  /\ (forall s : Sim,
        powered s ->
        activeBurnTime (stageNumber (state s)) (telemetry (tick s))
        >= Stage.burnTime (activeStage s) ->
        propellantRemaining (telemetry (tick s)) = 0).
Proof.
  split; [intros calls; apply (run_invariant calls) |].
  intros s Hp Hb. rewrite tick_powered_propellant by exact Hp.
  apply propellant_formula_empty; [apply burnTime_pos | exact Hb].
Qed.

Lemma propellant_depletion_witness :
  propellantRemaining (telemetry (tick endOfFirstStageBurn)) = 0.
Proof.
  apply (proj2 propellant_bounds_and_depletion endOfFirstStageBurn).
  - right. left. reflexivity.
  - destruct (tick_meco_separates endOfFirstStageBurn) as [_ _];
      try reflexivity; try (cbn; lra).
    unfold activeBurnTime. cbn [endOfFirstStageBurn].
    rewrite tick_powered by (right; left; reflexivity).
    autorewrite with frame. rewrite simulateAscent_stage1BurnTime.
    cbn. lra.
Defined.

(** ** The anomaly detector *)

Lemma checkAnomalies_list (s : Sim) :
  fst (checkAnomalies s)
  = (if dynamicPressure (telemetry s) >? Limits.maxQ (limits s)
     then [pressureAnomaly s] else [])
    ++ (if Rabs (gForce (telemetry s)) >? Limits.maxG (limits s)
        then [gForceAnomaly s] else [])
    ++ (if thrust (telemetry s) >? Limits.maxThrust (limits s)
        then [thrustAnomaly s] else []).
Proof.
  unfold checkAnomalies, pressureAnomaly, gForceAnomaly, thrustAnomaly.
  repeat case_if; reflexivity.
Qed.

Lemma In_pushed {A : Type} (c : bool) (x y : A) :
  In x (if c then [y] else []) <-> c = true /\ y = x.
Proof. destruct c; cbn; intuition discriminate. Qed.

(** Membership in the returned list, record by record. *)
Lemma checkAnomalies_In (s : Sim) (a : Anomaly) :
  In a (fst (checkAnomalies s))
  <-> (dynamicPressure (telemetry s) > Limits.maxQ (limits s) /\ pressureAnomaly s = a)
      \/ (Rabs (gForce (telemetry s)) > Limits.maxG (limits s) /\ gForceAnomaly s = a)
      \/ (thrust (telemetry s) > Limits.maxThrust (limits s) /\ thrustAnomaly s = a).
Proof.
  rewrite checkAnomalies_list, !in_app_iff, !In_pushed.
  destruct (Rgtb_spec (dynamicPressure (telemetry s)) (Limits.maxQ (limits s)));
    destruct (Rgtb_spec (Rabs (gForce (telemetry s))) (Limits.maxG (limits s)));
    destruct (Rgtb_spec (thrust (telemetry s)) (Limits.maxThrust (limits s)));
    intuition discriminate.
Qed.

(** C6.  [checkAnomalies] compares strictly: the thrust record is in the
    returned list exactly when the thrust is above [limits.maxThrust], the
    dynamic-pressure warning exactly when the dynamic pressure is above
    [limits.maxQ], the G-force record exactly when the absolute G-force is
    above [limits.maxG]; the list holds nothing else; and with the thrust
    equal to [limits.maxThrust] no record of the list is a critical thrust
    anomaly. *)
Theorem checkAnomalies_strict (s : Sim) :
  (In (thrustAnomaly s) (fst (checkAnomalies s))
   <-> thrust (telemetry s) > Limits.maxThrust (limits s))
  /\ (In (pressureAnomaly s) (fst (checkAnomalies s))
      <-> dynamicPressure (telemetry s) > Limits.maxQ (limits s))
  /\ (In (gForceAnomaly s) (fst (checkAnomalies s))
      <-> Rabs (gForce (telemetry s)) > Limits.maxG (limits s))
  /\ (forall a : Anomaly,
         In a (fst (checkAnomalies s)) ->
         a = pressureAnomaly s \/ a = gForceAnomaly s \/ a = thrustAnomaly s)
  /\ severity (thrustAnomaly s) = CRITICAL
  /\ severity (pressureAnomaly s) = WARNING
  /\ severity (gForceAnomaly s) = CRITICAL
  /\ (thrust (telemetry s) = Limits.maxThrust (limits s) ->
      forall a : Anomaly,
        In a (fst (checkAnomalies s)) ->
        ~ (parameter a = "thrust"%string /\ severity a = CRITICAL)).
Proof.
  assert (D1 : pressureAnomaly s <> thrustAnomaly s) by discriminate.
  assert (D2 : gForceAnomaly s <> thrustAnomaly s) by discriminate.
  assert (D3 : pressureAnomaly s <> gForceAnomaly s) by discriminate.
  split; [rewrite checkAnomalies_In; intuition congruence |].
  split; [rewrite checkAnomalies_In; intuition congruence |].
  split; [rewrite checkAnomalies_In; intuition congruence |].
  split; [intros a Ha; apply checkAnomalies_In in Ha; intuition congruence |].
  do 3 (split; [reflexivity |]).
  intros Heq a Ha [Hp _]. apply checkAnomalies_In in Ha.
  destruct Ha as [[_ E] | [[_ E] | [Hgt _]]]; [subst a; discriminate Hp .. | lra].
Qed.

(** C7.  [checkAnomalies] hands the simulator object back as it got it: the
    flight state, the phase and the abort flag in particular, and the
    telemetry are the ones before the call. *)
Theorem checkAnomalies_reads_only (s : Sim) :
  snd (checkAnomalies s) = s
  /\ state (snd (checkAnomalies s)) = state s
  /\ telemetry (snd (checkAnomalies s)) = telemetry s
  /\ phase (state (snd (checkAnomalies s))) = phase (state s)
  /\ abortFlag (state (snd (checkAnomalies s))) = abortFlag (state s).
Proof. repeat split; reflexivity. Qed.

(** ** The landing sequencer *)

Lemma simulateLanding_bands (s : Sim) :
  phase (state s) <> LANDED ->
  simulateLanding s = landingEpilogue (runBand (bandOf s) s).
Proof.
  intros H.
  assert (E : phaseIs s LANDED = false)
    by (unfold phaseIs; destruct (phase (state s)) eqn:P; try reflexivity; congruence).
  unfold simulateLanding, landingEpilogue, bandOf, landingBand. rewrite E.
  repeat (case_if; cbn [andb orb negb]); reflexivity.
Qed.

Lemma landingEpilogue_thrust (s : Sim) :
  thrust (telemetry (landingEpilogue s)) = thrust (telemetry s).
Proof. reflexivity. Qed.

Lemma landingEpilogue_state (s : Sim) : state (landingEpilogue s) = state s.
Proof. reflexivity. Qed.

Lemma tick_in_landing (s : Sim) :
  phase (state s) = LANDING ->
  tick s = checkPhaseTransitions
             (calculateOrbitalParams (updateEnvironment (simulateLanding s))).
Proof.
  intros H. unfold tick, updateSimulation, advanceMissionTime, dispatch, phaseIs.
  rewrite H. cbn. rewrite H. reflexivity.
Qed.

(** A tick in [LANDING] that stays in [LANDING] ends with the thrust the
    selected band commands. *)
Lemma tick_landing_thrust (s : Sim) :
  phase (state s) = LANDING ->
  phase (state (runBand (bandOf s) s)) = LANDING ->
  thrust (telemetry (tick s)) = thrust (telemetry (runBand (bandOf s) s)).
Proof.
  intros H Hb. rewrite tick_in_landing by exact H.
  rewrite simulateLanding_bands by (rewrite H; discriminate).
  rewrite checkPhaseTransitions_idle;
    autorewrite with frame; rewrite ?landingEpilogue_state, ?Hb;
    try discriminate.
  apply landingEpilogue_thrust.
Qed.

Lemma landingReentry_thrust (s : Sim) :
  thrust (telemetry (landingReentry s)) = 1800000.
Proof. reflexivity. Qed.

Lemma landingReentry_phase (s : Sim) :
  phase (state (landingReentry s)) = phase (state s).
Proof. reflexivity. Qed.

Lemma landingCoast_thrust (s : Sim) : thrust (telemetry (landingCoast s)) = 0.
Proof. frame landingCoast. Qed.

Lemma landingCoast_phase (s : Sim) :
  phase (state (landingCoast s)) = phase (state s).
Proof. frame landingCoast. Qed.

Lemma landingBand_60000 (b : bool) : landingBand 60000 b = Band1.
Proof. unfold landingBand. destruct (Rgtb_spec 60000 50000); [reflexivity | lra]. Qed.

Lemma landingBand_1000 : landingBand 1000 false = Band4.
Proof.
  unfold landingBand.
  destruct (Rgtb_spec 1000 50000); [lra |].
  destruct (Rgtb_spec 1000 7000); [lra |].
  destruct (Rgtb_spec 1000 2000); [lra |].
  destruct (Rgtb_spec 1000 500); [reflexivity | lra].
Qed.

Lemma landingBand_10 (b : bool) : landingBand 10 b = Band6.
Proof.
  unfold landingBand.
  destruct (Rgtb_spec 10 50000); [lra |].
  destruct (Rgtb_spec 10 7000); [lra |].
  destruct (Rgtb_spec 10 2000); [lra |].
  destruct (Rgtb_spec 10 500); [lra |].
  destruct (Rgtb_spec 10 20); [lra |].
  destruct (Rleb_spec 10 20); [| lra].
  destruct (Rgtb_spec 10 0); [| lra].
  destruct b; reflexivity.
Qed.

(** C8.  On a tick in [LANDING] the sequencer runs the band that
    [landingBand] computes from the altitude and the [landingBurnStarted]
    flag alone, so two simulators that agree on the altitude and on the two
    landing flags run the same band.  At 60000 m the band is band 1 and the
    tick ends with the thrust at 1800000 N; at 1000 m with the landing burn
    not started it is band 4 and the tick ends with the thrust at 0; at 10 m
    it is band 6. *)
Theorem landing_band_selection :
  (forall s : Sim,
      phase (state s) = LANDING ->
      simulateLanding s = landingEpilogue (runBand (bandOf s) s))
  /\ (forall s1 s2 : Sim,
         altitude (telemetry s1) = altitude (telemetry s2) ->
         landingBurnStarted (state s1) = landingBurnStarted (state s2) ->
         landingLegsDeployed (state s1) = landingLegsDeployed (state s2) ->
         bandOf s1 = bandOf s2)
  /\ (forall s : Sim,
         phase (state s) = LANDING -> altitude (telemetry s) = 60000 ->
         bandOf s = Band1 /\ thrust (telemetry (tick s)) = 1800000)
  /\ (forall s : Sim,
         phase (state s) = LANDING -> altitude (telemetry s) = 1000 ->
         landingBurnStarted (state s) = false ->
         bandOf s = Band4 /\ thrust (telemetry (tick s)) = 0)
  /\ (forall s : Sim,
         phase (state s) = LANDING -> altitude (telemetry s) = 10 ->
         bandOf s = Band6).
Proof.
  split; [intros s H; apply simulateLanding_bands; rewrite H; discriminate |].
  split; [intros s1 s2 Ha Hb _; unfold bandOf; rewrite Ha, Hb; reflexivity |].
  split; [| split].
  - intros s Hp Ha.
    assert (B : bandOf s = Band1) by (unfold bandOf; rewrite Ha; apply landingBand_60000).
    split; [exact B |].
    rewrite tick_landing_thrust; rewrite ?B; cbn [runBand].
    + apply landingReentry_thrust.
    + exact Hp.
    + rewrite landingReentry_phase. exact Hp.
  - intros s Hp Ha Hf.
    assert (B : bandOf s = Band4) by (unfold bandOf; rewrite Ha, Hf; apply landingBand_1000).
    split; [exact B |].
    rewrite tick_landing_thrust; rewrite ?B; cbn [runBand].
    + apply landingCoast_thrust.
    + exact Hp.
    + rewrite landingCoast_phase. exact Hp.
  - intros s _ Ha. unfold bandOf. rewrite Ha. apply landingBand_10.
Qed.

Lemma landing_band_selection_witness :
  bandOf reentryAt60km = Band1
  /\ thrust (telemetry (tick reentryAt60km)) = 1800000.
Proof.
  destruct landing_band_selection as [_ [_ [H _]]].
  apply (H reentryAt60km); reflexivity.
Defined.
